(** * Signed-request core of the Binance Futures testnet client

    A shallow embedding of [simplified_binance_futures_bot.py]: the class
    [BinanceFuturesRest] (time source, request signer, payload construction,
    signed transport) and the command-line validators, followed by the
    properties established about them.

    Conventions of the embedding.
    - A Python [str] is a Rocq [string] holding its UTF-8 bytes; [bytes] are
      [list Z] with every element in [0, 256).  [str.encode('utf-8')] is then
      the byte view [bytes_of_string].  Case mapping ([upper], [lower]) acts
      on ASCII letters.
    - A [dict] is an association list in insertion order; item assignment
      keeps the position of an existing key and appends a new one.
    - Mutable objects live in a store addressed by references, and every
      method of the client is a state transformer that may raise.
    - The network and the clock form a [world] the client cannot see into. *)

From Stdlib Require Import ZArith List String Ascii Bool Lia.
From Stdlib Require Import Decimal DecimalString.
Import ListNotations.
Local Open Scope string_scope.
Local Open Scope Z_scope.

(* ================================================================== *)
(** * Bytes and strings *)

Definition bytes := list Z.

Definition byte_of_ascii (c : ascii) : Z := Z.of_N (N_of_ascii c).
Definition ascii_of_byte (b : Z) : ascii := ascii_of_N (Z.to_N b).

Definition bytes_of_string (s : string) : bytes :=
  map byte_of_ascii (list_ascii_of_string s).

(** ['&'.join(l)] *)
Fixpoint join (sep : string) (l : list string) : string :=
  match l with
  | [] => ""
  | [s] => s
  | s :: r => s ++ sep ++ join sep r
  end.

Fixpoint str_map (f : ascii -> ascii) (s : string) : string :=
  match s with
  | EmptyString => EmptyString
  | String c r => String (f c) (str_map f r)
  end.

Fixpoint str_forall (p : ascii -> bool) (s : string) : bool :=
  match s with
  | EmptyString => true
  | String c r => p c && str_forall p r
  end.

Definition in_range (lo hi : Z) (c : ascii) : bool :=
  (lo <=? byte_of_ascii c) && (byte_of_ascii c <=? hi).

Definition is_digit (c : ascii) : bool := in_range 48 57 c.
Definition is_upper (c : ascii) : bool := in_range 65 90 c.
Definition is_lower (c : ascii) : bool := in_range 97 122 c.
Definition is_lower_hex (c : ascii) : bool := is_digit c || in_range 97 102 c.

Definition upper_char (c : ascii) : ascii :=
  if is_lower c then ascii_of_byte (byte_of_ascii c - 32) else c.
Definition lower_char (c : ascii) : ascii :=
  if is_upper c then ascii_of_byte (byte_of_ascii c + 32) else c.

(** [str.upper()] and [str.lower()] *)
Definition upper (s : string) : string := str_map upper_char s.
Definition lower (s : string) : string := str_map lower_char s.

(** Substring test, for statements about what a log line contains. *)
Fixpoint contains (needle hay : string) : bool :=
  if prefix needle hay then true
  else match hay with
       | EmptyString => false
       | String _ r => contains needle r
       end.

(** [s.rstrip("/")] *)
Fixpoint rstrip_slash (s : string) : string :=
  match s with
  | EmptyString => EmptyString
  | String c r =>
      match rstrip_slash r with
      | EmptyString => if Ascii.eqb c "/" then EmptyString else String c EmptyString
      | r' => String c r'
      end
  end.

(** [str(n)] for a Python [int] *)
Definition str_of_int (n : Z) : string := NilZero.string_of_int (Z.to_int n).

(* ================================================================== *)
(** * hashlib.sha256 (FIPS 180-4), on 32-bit words held in [Z] *)

Module hashlib.

Definition wrap32 (x : Z) : Z := Z.land x 4294967295.
Definition add32 (x y : Z) : Z := wrap32 (x + y).
Definition rotr (n x : Z) : Z :=
  Z.lor (Z.shiftr x n) (wrap32 (Z.shiftl x (32 - n))).
Definition not32 (x : Z) : Z := Z.lxor x 4294967295.

Definition ch (x y z : Z) := Z.lxor (Z.land x y) (Z.land (not32 x) z).
Definition maj (x y z : Z) :=
  Z.lxor (Z.lxor (Z.land x y) (Z.land x z)) (Z.land y z).
Definition bsig0 x := Z.lxor (Z.lxor (rotr 2 x) (rotr 13 x)) (rotr 22 x).
Definition bsig1 x := Z.lxor (Z.lxor (rotr 6 x) (rotr 11 x)) (rotr 25 x).
Definition ssig0 x := Z.lxor (Z.lxor (rotr 7 x) (rotr 18 x)) (Z.shiftr x 3).
Definition ssig1 x := Z.lxor (Z.lxor (rotr 17 x) (rotr 19 x)) (Z.shiftr x 10).

Definition round_constants : list Z :=
  [ 0x428A2F98; 0x71374491; 0xB5C0FBCF; 0xE9B5DBA5;
    0x3956C25B; 0x59F111F1; 0x923F82A4; 0xAB1C5ED5;
    0xD807AA98; 0x12835B01; 0x243185BE; 0x550C7DC3;
    0x72BE5D74; 0x80DEB1FE; 0x9BDC06A7; 0xC19BF174;
    0xE49B69C1; 0xEFBE4786; 0x0FC19DC6; 0x240CA1CC;
    0x2DE92C6F; 0x4A7484AA; 0x5CB0A9DC; 0x76F988DA;
    0x983E5152; 0xA831C66D; 0xB00327C8; 0xBF597FC7;
    0xC6E00BF3; 0xD5A79147; 0x06CA6351; 0x14292967;
    0x27B70A85; 0x2E1B2138; 0x4D2C6DFC; 0x53380D13;
    0x650A7354; 0x766A0ABB; 0x81C2C92E; 0x92722C85;
    0xA2BFE8A1; 0xA81A664B; 0xC24B8B70; 0xC76C51A3;
    0xD192E819; 0xD6990624; 0xF40E3585; 0x106AA070;
    0x19A4C116; 0x1E376C08; 0x2748774C; 0x34B0BCB5;
    0x391C0CB3; 0x4ED8AA4A; 0x5B9CCA4F; 0x682E6FF3;
    0x748F82EE; 0x78A5636F; 0x84C87814; 0x8CC70208;
    0x90BEFFFA; 0xA4506CEB; 0xBEF9A3F7; 0xC67178F2 ].

(** The eight working variables / chaining values. *)
Record regs := Regs { ra : Z; rb : Z; rc : Z; rd : Z;
                      re : Z; rf : Z; rg : Z; rh : Z }.

Definition initial_hash : regs :=
  Regs 0x6A09E667 0xBB67AE85 0x3C6EF372 0xA54FF53A
       0x510E527F 0x9B05688C 0x1F83D9AB 0x5BE0CD19.

(** Big-endian bytes of a word, and back. *)
Definition word_bytes (x : Z) : bytes :=
  [ Z.land (Z.shiftr x 24) 255; Z.land (Z.shiftr x 16) 255;
    Z.land (Z.shiftr x 8) 255; Z.land x 255 ].

Fixpoint words_of (bs : bytes) : list Z :=
  match bs with
  | b0 :: b1 :: b2 :: b3 :: r =>
      (Z.lor (Z.shiftl b0 24) (Z.lor (Z.shiftl b1 16) (Z.lor (Z.shiftl b2 8) b3)))
        :: words_of r
  | _ => []
  end.

(** Message padding: 0x80, zeros up to 56 mod 64, then the bit length on
    eight bytes. *)
Definition pad (msg : bytes) : bytes :=
  let n := Z.of_nat (List.length msg) in
  let zeros := Z.to_nat ((55 - n) mod 64) in
  let bits := 8 * n in
  (msg ++ [128] ++ repeat 0 zeros
       ++ word_bytes (Z.shiftr bits 32) ++ word_bytes (wrap32 bits))%list.

(** Message schedule: [win] holds the previous sixteen words, oldest first. *)
Fixpoint schedule (n : nat) (win : list Z) : list Z :=
  match n with
  | O => []
  | S n' =>
      let wnew :=
        add32 (add32 (ssig1 (nth 14 win 0)) (nth 9 win 0))
              (add32 (ssig0 (nth 1 win 0)) (nth 0 win 0)) in
      wnew :: schedule n' (tl win ++ [wnew])%list
  end.

Definition round (r : regs) (kw : Z * Z) : regs :=
  let t1 := add32 (add32 (add32 (rh r) (bsig1 (re r)))
                         (add32 (ch (re r) (rf r) (rg r)) (fst kw))) (snd kw) in
  let t2 := add32 (bsig0 (ra r)) (maj (ra r) (rb r) (rc r)) in
  Regs (add32 t1 t2) (ra r) (rb r) (rc r) (add32 (rd r) t1) (re r) (rf r) (rg r).

Definition compress (h : regs) (block : list Z) : regs :=
  let w := (block ++ schedule 48 block)%list in
  let r := fold_left round (combine round_constants w) h in
  Regs (add32 (ra h) (ra r)) (add32 (rb h) (rb r))
       (add32 (rc h) (rc r)) (add32 (rd h) (rd r))
       (add32 (re h) (re r)) (add32 (rf h) (rf r))
       (add32 (rg h) (rg r)) (add32 (rh h) (rh r)).

(** Hash the sixteen-word blocks of [ws] in turn; [n] bounds their number. *)
Fixpoint blocks (n : nat) (h : regs) (ws : list Z) : regs :=
  match n, ws with
  | S n', _ :: _ => blocks n' (compress h (firstn 16 ws)) (skipn 16 ws)
  | _, _ => h
  end.

Definition digest_bytes (h : regs) : bytes :=
  flat_map word_bytes
    [ra h; rb h; rc h; rd h; re h; rf h; rg h; rh h].

Definition block_size : nat := 64.

(** [hashlib.sha256(msg).digest()] *)
Definition sha256 (msg : bytes) : bytes :=
  let ws := words_of (pad msg) in
  digest_bytes (blocks (List.length ws) initial_hash ws).

End hashlib.

(** [bytes.hex()] / [hexdigest()]: two lowercase hexadecimal digits a byte. *)
Definition hex_digit (n : Z) : ascii :=
  if n <? 10 then ascii_of_byte (48 + n) else ascii_of_byte (87 + n).

Fixpoint hex (bs : bytes) : string :=
  match bs with
  | [] => ""
  | b :: r => String (hex_digit (Z.shiftr b 4 mod 16))
                (String (hex_digit (b mod 16)) (hex r))
  end.

(* ================================================================== *)
(** * hmac.new(key, msg, hashlib.sha256)

    As in [Lib/hmac.py]: a key longer than the block is hashed first, the key
    is right-padded with zero bytes to the block size, and the inner and
    outer hash objects are fed the key translated through the 0x36 and 0x5C
    tables before the message and the inner digest respectively. *)

Module hmac.

Definition ljust (n : nat) (k : bytes) : bytes :=
  (k ++ repeat 0 (n - List.length k))%list.

Definition translate (x : Z) (k : bytes) : bytes := map (Z.lxor x) k.

Record HMAC := { inner : bytes; outer : bytes }.

Definition new (key msg : bytes) : HMAC :=
  let key := if (hashlib.block_size <? List.length key)%nat
             then hashlib.sha256 key else key in
  let key := ljust hashlib.block_size key in
  {| inner := (translate 0x36 key ++ msg)%list; outer := translate 0x5C key |}.

Definition digest (h : HMAC) : bytes :=
  hashlib.sha256 (outer h ++ hashlib.sha256 (inner h))%list.

Definition hexdigest (h : HMAC) : string := hex (digest h).

End hmac.

(* ================================================================== *)
(** * Floats and the ['f'] presentation type

    A finite non-zero binary64 value is [(-1)^neg * m * 2^e]; nothing below
    relies on [m] and [e] being in the binary64 range.  [format(x, 'f')]
    prints the value correctly rounded (half to even) to six places. *)

Inductive pyfloat :=
| Finite (neg : bool) (m : positive) (e : Z)
| Zero (neg : bool)
| Inf (neg : bool)
| NaN.

(** [m * 2^e * 10^6] rounded to the nearest integer, ties to even. *)
Definition scaled6 (m : positive) (e : Z) : Z :=
  if 0 <=? e then Z.pos m * 2 ^ e * 1000000
  else
    let num := Z.pos m * 1000000 in
    let den := 2 ^ (- e) in
    let q := num / den in
    let r := num mod den in
    if (den <? 2 * r) || ((2 * r =? den) && Z.odd q) then q + 1 else q.

Definition digit_char (d : Z) : ascii := ascii_of_byte (48 + d).

(** The six decimals of [r], most significant first. *)
Definition decimals6 (r : Z) : string :=
  String (digit_char (r / 100000 mod 10))
 (String (digit_char (r / 10000 mod 10))
 (String (digit_char (r / 1000 mod 10))
 (String (digit_char (r / 100 mod 10))
 (String (digit_char (r / 10 mod 10))
 (String (digit_char (r mod 10)) EmptyString))))).

Definition fixed6 (n : Z) : string :=
  str_of_int (n / 1000000) ++ "." ++ decimals6 (n mod 1000000).

Definition sign_str (neg : bool) : string := if neg then "-" else "".

Definition format_f (x : pyfloat) : string :=
  match x with
  | Finite s m e => sign_str s ++ fixed6 (scaled6 m e)
  | Zero s => sign_str s ++ "0.000000"
  | Inf s => sign_str s ++ "inf"
  | NaN => "nan"
  end.

(** [v <= 0] on floats: false on NaN. *)
Definition float_le_zero (x : pyfloat) : bool :=
  match x with
  | Finite s _ _ => s
  | Zero _ => true
  | Inf s => s
  | NaN => false
  end.

(** Truncation toward zero, [int(x)]; [None] where Python raises
    (OverflowError on infinities, ValueError on NaN). *)
Definition float_trunc (x : pyfloat) : option Z :=
  match x with
  | Finite s m e =>
      let a := if 0 <=? e then Z.pos m * 2 ^ e else Z.pos m / 2 ^ (- e) in
      Some (if s then - a else a)
  | Zero _ => Some 0
  | Inf _ | NaN => None
  end.

(** 0.001, -1.0, 69000.0 and 0.5 as binary64 values. *)
Definition f_0_001 : pyfloat := Finite false 4611686018427388 (-62).
Definition f_minus_1 : pyfloat := Finite true 1 0.
Definition f_69000 : pyfloat := Finite false 69000 0.
Definition f_half : pyfloat := Finite false 1 (-1).

(* ================================================================== *)
(** * Values, dictionaries and JSON *)

(** What a payload entry can hold: a string, an integer, or a sequence of
    those (the multi-valued case of [urlencode(..., doseq=True)]). *)
Inductive scalar := SStr (s : string) | SInt (n : Z).
Inductive pyval := VStr (s : string) | VInt (n : Z) | VSeq (l : list scalar).

Definition pydict := list (string * pyval).

Definition keys (d : pydict) : list string := map fst d.

Definition has_key (k : string) (d : pydict) : bool :=
  existsb (String.eqb k) (keys d).

Fixpoint getitem (d : pydict) (k : string) : option pyval :=
  match d with
  | [] => None
  | (k', v) :: r => if String.eqb k k' then Some v else getitem r k
  end.

(** [d[k] = v]: an existing key keeps its place, a new key goes last. *)
Fixpoint setitem (d : pydict) (k : string) (v : pyval) : pydict :=
  match d with
  | [] => [(k, v)]
  | (k', v') :: r =>
      if String.eqb k k' then (k', v) :: r else (k', v') :: setitem r k v
  end.

(** A dict display [{k1: v1, ...}] evaluates its items left to right. *)
Definition dict_of (items : list (string * pyval)) : pydict :=
  fold_left (fun d kv => setitem d (fst kv) (snd kv)) items [].

(** Decoded JSON documents; an object lists the entries of the decoded
    [dict]. *)
#[local] Set Warnings "-register-all".
Inductive json :=
| JNull
| JBool (b : bool)
| JInt (n : Z)
| JFloat (x : pyfloat)
| JStr (s : string)
| JArr (l : list json)
| JObj (o : list (string * json)).

(** Truth value of a decoded JSON value, as [if v:] tests it. *)
Definition truthy (v : json) : bool :=
  match v with
  | JNull => false
  | JBool b => b
  | JInt n => negb (n =? 0)
  | JFloat (Zero _) => false
  | JFloat _ => true
  | JStr s => negb (String.eqb s "")
  | JArr l => match l with [] => false | _ => true end
  | JObj o => match o with [] => false | _ => true end
  end.

Fixpoint obj_get (o : list (string * json)) (k : string) : json :=
  match o with
  | [] => JNull
  | (k', v) :: r => if String.eqb k k' then v else obj_get r k
  end.

(* ================================================================== *)
(** * urllib.parse.urlencode(query, doseq=True) *)

Definition always_safe (c : ascii) : bool :=
  is_upper c || is_lower c || is_digit c
  || Ascii.eqb c "_" || Ascii.eqb c "." || Ascii.eqb c "-" || Ascii.eqb c "~".

Definition hex_digit_upper (n : Z) : ascii :=
  if n <? 10 then ascii_of_byte (48 + n) else ascii_of_byte (55 + n).

Definition quote_char (c : ascii) : string :=
  if always_safe c then String c EmptyString
  else if Ascii.eqb c " " then "+"
  else String "%" (String (hex_digit_upper (byte_of_ascii c / 16))
                  (String (hex_digit_upper (byte_of_ascii c mod 16)) EmptyString)).

(** [quote_plus(s)] *)
Fixpoint quote_plus (s : string) : string :=
  match s with
  | EmptyString => EmptyString
  | String c r => quote_char c ++ quote_plus r
  end.

Definition str_of_scalar (x : scalar) : string :=
  match x with SStr s => s | SInt n => str_of_int n end.

(** The [key=value] items one dictionary entry contributes. *)
Definition encode_item (kv : string * pyval) : list string :=
  let k := quote_plus (fst kv) in
  match snd kv with
  | VStr s => [k ++ "=" ++ quote_plus s]
  | VInt n => [k ++ "=" ++ quote_plus (str_of_int n)]
  | VSeq l => map (fun x => k ++ "=" ++ quote_plus (str_of_scalar x)) l
  end.

Definition urlencode (d : pydict) : string :=
  join "&" (flat_map encode_item d).

Definition type_name (v : json) : string :=
  match v with
  | JNull => "NoneType" | JBool _ => "bool" | JInt _ => "int"
  | JFloat _ => "float" | JStr _ => "str" | JArr _ => "list" | JObj _ => "dict"
  end.

(* ================================================================== *)
(** * Exceptions, the network, the store *)

Record response := {
  status_code : Z;
  reason : string;
  resp_url : string;
  text : string;
  (** what [r.json()] yields: the decoded document, or the message of the
      decoding error it raises *)
  decoded : string + json
}.

Inductive exn :=
| TypeError (msg : string)
| ValueError (msg : string)
| OverflowError (msg : string)
| AttributeError (msg : string)
| ArgumentTypeError (msg : string)
| JSONDecodeError (msg : string)
| RequestException (msg : string)      (* no response: connection, timeout, TLS *)
| HTTPError (msg : string) (r : response).

(** [str(e)] *)
Definition str_exn (e : exn) : string :=
  match e with
  | TypeError m | ValueError m | OverflowError m | AttributeError m
  | ArgumentTypeError m | JSONDecodeError m | RequestException m
  | HTTPError m _ => m
  end.

Definition is_HTTPError (e : exn) : bool :=
  match e with HTTPError _ _ => true | _ => false end.

Inductive result (A : Type) := Ok (a : A) | Raise (e : exn).
Arguments Ok {A} a.
Arguments Raise {A} e.

(** A call made on the [requests] session. *)
Record request := {
  verb : string;
  url : string;
  data : option string;
  params : option pydict;
  timeout : Z
}.

Inductive fetch := Reply (r : response) | Broken (cause : string).

(** Everything outside the process: what the remote end answers to a request,
    given the requests made before it, and the successive readings of
    [int(time.time() * 1000)]. *)
Record world := {
  transport : list request -> request -> fetch;
  clock : nat -> Z
}.

(** Built-ins of the Python runtime that are left abstract: [int(s)] and
    [float(s)] on a string ([inl]/[None] when they raise ValueError) and
    [str(v)] on a decoded JSON value. *)
Record runtime := {
  int_of_str : string -> string + Z;
  float_of_str : string -> option pyfloat;
  str_of_json : json -> string
}.

Inductive level := DEBUG | INFO | WARNING | ERROR.

Definition ref := nat.

Record state := {
  heap : ref -> pydict;          (* the dictionaries, by reference *)
  next_ref : ref;
  sent : list request;           (* calls made on the session, oldest first *)
  clock_reads : nat;
  log : list (level * string)    (* records handed to [logger], oldest first *)
}.

Definition M (A : Type) : Type := state -> result A * state.

Definition ret {A} (a : A) : M A := fun s => (Ok a, s).
Definition raise {A} (e : exn) : M A := fun s => (Raise e, s).
Definition bind {A B} (c : M A) (k : A -> M B) : M B :=
  fun s => match c s with
           | (Ok a, s') => k a s'
           | (Raise e, s') => (Raise e, s')
           end.
Definition lift {A} (r : result A) : M A :=
  match r with Ok a => ret a | Raise e => raise e end.

(** [try: c  except Exception as e: h e] *)
Definition try_except {A} (c : M A) (h : exn -> M A) : M A :=
  fun s => match c s with
           | (Ok a, s') => (Ok a, s')
           | (Raise e, s') => h e s'
           end.

Declare Scope py_scope.
Delimit Scope py_scope with py.
Notation "x <- c ;; k" := (bind c (fun x => k))
  (at level 61, c at next level, right associativity) : py_scope.
Notation "c ;; k" := (bind c (fun _ => k))
  (at level 61, right associativity) : py_scope.
Local Open Scope py_scope.

Definition upd (h : ref -> pydict) (l : ref) (d : pydict) : ref -> pydict :=
  fun l' => if Nat.eqb l' l then d else h l'.

Definition alloc (d : pydict) : M ref :=
  fun s => (Ok (next_ref s),
            {| heap := upd (heap s) (next_ref s) d; next_ref := S (next_ref s);
               sent := sent s; clock_reads := clock_reads s; log := log s |}).

Definition read (l : ref) : M pydict := fun s => (Ok (heap s l), s).

Definition write (l : ref) (d : pydict) : M unit :=
  fun s => (Ok tt,
            {| heap := upd (heap s) l d; next_ref := next_ref s;
               sent := sent s; clock_reads := clock_reads s; log := log s |}).

(** [logger.<level>(msg)] *)
Definition logger (lv : level) (msg : string) : M unit :=
  fun s => (Ok tt,
            {| heap := heap s; next_ref := next_ref s; sent := sent s;
               clock_reads := clock_reads s; log := (log s ++ [(lv, msg)])%list |}).

(** [int(time.time() * 1000)] *)
Definition time_ms (w : world) : M Z :=
  fun s => (Ok (clock w (clock_reads s)),
            {| heap := heap s; next_ref := next_ref s; sent := sent s;
               clock_reads := S (clock_reads s); log := log s |}).

(** One call on the session: recorded, then answered by the world. *)
Definition session_request (w : world) (rq : request) : M response :=
  fun s =>
    let s' := {| heap := heap s; next_ref := next_ref s;
                 sent := (sent s ++ [rq])%list;
                 clock_reads := clock_reads s; log := log s |} in
    match transport w (sent s) rq with
    | Reply r => (Ok r, s')
    | Broken cause => (Raise (RequestException cause), s')
    end.

(** [r.raise_for_status()], as in [requests.models.Response]. *)
Definition raise_for_status (r : response) : result unit :=
  if (400 <=? status_code r) && (status_code r <? 500) then
    Raise (HTTPError (str_of_int (status_code r) ++ " Client Error: "
                        ++ reason r ++ " for url: " ++ resp_url r) r)
  else if (500 <=? status_code r) && (status_code r <? 600) then
    Raise (HTTPError (str_of_int (status_code r) ++ " Server Error: "
                        ++ reason r ++ " for url: " ++ resp_url r) r)
  else Ok tt.

(** [r.json()] *)
Definition r_json (r : response) : result json :=
  match decoded r with
  | inr j => Ok j
  | inl msg => Raise (JSONDecodeError msg)
  end.

(** [j.get(k)]: only a dict has the method. *)
Definition json_get (j : json) (k : string) : result json :=
  match j with
  | JObj o => Ok (obj_get o k)
  | _ => Raise (AttributeError
                  ("'" ++ type_name j ++ "' object has no attribute 'get'"))
  end.

(** [int(v)] on a decoded JSON value. *)
Definition py_int (py : runtime) (v : json) : result Z :=
  match v with
  | JInt n => Ok n
  | JBool b => Ok (if b then 1 else 0)
  | JFloat x =>
      match float_trunc x with
      | Some n => Ok n
      | None =>
          match x with
          | NaN => Raise (ValueError "cannot convert float NaN to integer")
          | _ => Raise (OverflowError "cannot convert float infinity to integer")
          end
      end
  | JStr s =>
      match int_of_str py s with
      | inr n => Ok n
      | inl msg => Raise (ValueError msg)
      end
  | _ => Raise (TypeError
                  ("int() argument must be a string, a bytes-like object or a real number, not '"
                     ++ type_name v ++ "'"))
  end.

(** Arguments of the order operations: a float, or [None]. *)
Inductive pyobj := PNone | PFloat (x : pyfloat).

(** [float(q)] *)
Definition py_float (q : pyobj) : result pyfloat :=
  match q with
  | PFloat x => Ok x
  | PNone => Raise (TypeError
               "float() argument must be a string or a real number, not 'NoneType'")
  end.

(** [str(b)] for a bool *)
Definition str_of_bool (b : bool) : string := if b then "True" else "False".

(* ================================================================== *)
(** * class BinanceFuturesRest *)

Definition TESTNET_BASE : string := "https://testnet.binancefuture.com".
Definition API_ORDER_PATH : string := "/fapi/v1/order".
Definition API_TIME_PATH : string := "/fapi/v1/time".

Record BinanceFuturesRest := {
  api_key : string;
  api_secret : bytes;
  base : string;
  session_headers : list (string * string)
}.

Definition __init__ (api_key api_secret base_url : string) : BinanceFuturesRest :=
  {| api_key := api_key;
     api_secret := bytes_of_string api_secret;
     base := rstrip_slash base_url;
     session_headers :=
       [("X-MBX-APIKEY", api_key);
        ("Content-Type", "application/x-www-form-urlencoded")] |}.

Definition _fmt_qty (q : pyobj) : result string :=
  match py_float q with
  | Ok x => Ok (format_f x)
  | Raise e => Raise e
  end.

Definition _fmt_price (p : pyobj) : result string :=
  match py_float p with
  | Ok x => Ok (format_f x)
  | Raise e => Raise e
  end.

Definition _sign (self : BinanceFuturesRest) (d : pydict) : string :=
  let query_string := urlencode d in
  hmac.hexdigest (hmac.new (api_secret self) (bytes_of_string query_string)).

Section Client.

Context (py : runtime) (w : world) (self : BinanceFuturesRest).

Definition time_request : request :=
  {| verb := "GET"; url := base self ++ API_TIME_PATH;
     data := None; params := None; timeout := 5 |}.

(** The body of the [try] in [_get_timestamp]: [Some n] is [return n], [None]
    is falling out of the [if]. *)
Definition fetch_server_time : M (option Z) :=
  r <- session_request w time_request ;;
  lift (raise_for_status r) ;;
  j <- lift (r_json r) ;;
  server_time <- lift (json_get j "serverTime") ;;
  if truthy server_time
  then n <- lift (py_int py server_time) ;; ret (Some n)
  else ret None.

Definition _get_timestamp : M Z :=
  o <- try_except fetch_server_time
         (fun e =>
            logger WARNING ("Could not fetch server time: " ++ str_exn e
                              ++ " — falling back to local time") ;;
            ret None) ;;
  match o with
  | Some n => ret n
  | None => time_ms w
  end.

Definition order_request (method url body : string) (payload : pydict) : request :=
  if String.eqb (upper method) "POST" then
    {| verb := "POST"; url := url; data := Some body; params := None; timeout := 10 |}
  else if String.eqb (upper method) "DELETE" then
    {| verb := "DELETE"; url := url; data := Some body; params := None; timeout := 10 |}
  else
    {| verb := "GET"; url := url; data := None; params := Some payload; timeout := 10 |}.

(** The four f-strings logged by [_send_signed]. *)
Definition request_line (method url body : string) : string :=
  "REQUEST -> " ++ method ++ " " ++ url ++ " | body: " ++ body.

Definition response_line (r : response) : string :=
  "RESPONSE [" ++ str_of_int (status_code r) ++ "] -> " ++ text r.

Definition http_error_line (he : exn) (err : string) : string :=
  "HTTP error: " ++ str_exn he ++ " | response: " ++ err.

Definition network_error_line (e : exn) : string :=
  "Network/Error: " ++ str_exn e.

(** The handler of [except requests.HTTPError as he]. *)
Definition on_http_error {A} (he : exn) : M A :=
  match he with
  | HTTPError _ r =>
      let err := match r_json r with
                 | Ok j => str_of_json py j
                 | Raise _ => text r
                 end in
      logger ERROR (http_error_line he err) ;;
      raise he
  | _ => raise he
  end.

(** The handler of [except Exception as e]. *)
Definition on_other_error {A} (e : exn) : M A :=
  logger ERROR (network_error_line e) ;;
  raise e.

(** The [try] statement of [_send_signed]: one call on the session, with the
    two handlers. *)
Definition try_request (method url body : string) (payload : pydict) : M json :=
  try_except
    (r <- session_request w (order_request method url body payload) ;;
     logger DEBUG (response_line r) ;;
     lift (raise_for_status r) ;;
     lift (r_json r))
    (fun e => if is_HTTPError e then on_http_error e else on_other_error e).

Definition _send_signed (method path : string) (payload : ref) : M json :=
  let url := base self ++ path in
  ts <- _get_timestamp ;;
  d <- read payload ;;
  write payload (setitem d "timestamp" (VInt ts)) ;;
  d <- read payload ;;
  let signature := _sign self d in
  write payload (setitem d "signature" (VStr signature)) ;;
  d <- read payload ;;
  let body := urlencode d in
  logger DEBUG (request_line method url body) ;;
  try_request method url body d.

(** The dict displays of the three public wrappers. *)
Definition market_payload (symbol side : string) (quantity : pyobj)
    (reduceOnly : bool) : result pydict :=
  match _fmt_qty quantity with
  | Raise e => Raise e
  | Ok q =>
      Ok (dict_of [("symbol", VStr symbol);
                   ("side", VStr side);
                   ("type", VStr "MARKET");
                   ("quantity", VStr q);
                   ("reduceOnly", VStr (lower (str_of_bool reduceOnly)))])
  end.

Definition limit_payload (symbol side : string) (quantity price : pyobj)
    (timeInForce : string) (reduceOnly : bool) : result pydict :=
  match _fmt_qty quantity with
  | Raise e => Raise e
  | Ok q =>
      match _fmt_price price with
      | Raise e => Raise e
      | Ok p =>
          Ok (dict_of [("symbol", VStr symbol);
                       ("side", VStr side);
                       ("type", VStr "LIMIT");
                       ("timeInForce", VStr timeInForce);
                       ("quantity", VStr q);
                       ("price", VStr p);
                       ("reduceOnly", VStr (lower (str_of_bool reduceOnly)))])
      end
  end.

Definition stop_limit_payload (symbol side : string)
    (quantity stopPrice price : pyobj)
    (timeInForce : string) (reduceOnly : bool) : result pydict :=
  match _fmt_qty quantity with
  | Raise e => Raise e
  | Ok q =>
      match _fmt_price stopPrice with
      | Raise e => Raise e
      | Ok sp =>
          match _fmt_price price with
          | Raise e => Raise e
          | Ok p =>
              Ok (dict_of [("symbol", VStr symbol);
                           ("side", VStr side);
                           ("type", VStr "STOP");
                           ("quantity", VStr q);
                           ("stopPrice", VStr sp);
                           ("price", VStr p);
                           ("timeInForce", VStr timeInForce);
                           ("reduceOnly", VStr (lower (str_of_bool reduceOnly)))])
          end
      end
  end.

Definition place_market_order (symbol side : string) (quantity : pyobj)
    (reduceOnly : bool) (timeInForce : option string) : M json :=
  d <- lift (market_payload symbol side quantity reduceOnly) ;;
  payload <- alloc d ;;
  _send_signed "POST" API_ORDER_PATH payload.

Definition place_limit_order (symbol side : string) (quantity price : pyobj)
    (timeInForce : string) (reduceOnly : bool) : M json :=
  d <- lift (limit_payload symbol side quantity price timeInForce reduceOnly) ;;
  payload <- alloc d ;;
  _send_signed "POST" API_ORDER_PATH payload.

Definition place_stop_limit_order (symbol side : string)
    (quantity stopPrice price : pyobj)
    (timeInForce : string) (reduceOnly : bool) : M json :=
  d <- lift (stop_limit_payload symbol side quantity stopPrice price
               timeInForce reduceOnly) ;;
  payload <- alloc d ;;
  _send_signed "POST" API_ORDER_PATH payload.

(** ** Command-line validators *)


Definition positive_number (x : string) : result pyfloat :=
  match float_of_str py x with
  | None => Raise (ArgumentTypeError "must be a number")
  | Some v =>
      if float_le_zero v then Raise (ArgumentTypeError "must be > 0")
      else Ok v
  end.

End Client.

Arguments _sign : simpl never.
Arguments urlencode : simpl never.
Arguments str_of_int : simpl never.
Arguments request_line : simpl never.
Arguments response_line : simpl never.
Arguments http_error_line : simpl never.
Arguments network_error_line : simpl never.

(** Requests made on the session during a run of [c] from [s]. *)
Definition sent_during {A} (c : M A) (s : state) : list request :=
  skipn (List.length (sent s)) (sent (snd (c s))).

(** What [_get_timestamp] returns, by the answer to its request and the
    reading of the local clock. *)
Definition time_reading (py : runtime) (answer : fetch) (local : Z) : Z :=
  match answer with
  | Broken _ => local
  | Reply r =>
      match raise_for_status r, decoded r with
      | Ok _, inr (JObj o) =>
          let server_time := obj_get o "serverTime" in
          if truthy server_time then
            match py_int py server_time with
            | Ok n => n
            | Raise _ => local
            end
          else local
      | _, _ => local
      end
  end.


(** The same client holding another secret. *)
Definition with_secret (self : BinanceFuturesRest) (k : bytes) : BinanceFuturesRest :=
  {| api_key := api_key self; api_secret := k; base := base self;
     session_headers := session_headers self |}.

(** An order intent, and the operation of the client that serves it. *)
Inductive intent :=
| Market (symbol side : string) (quantity : pyobj) (reduceOnly : bool)
| Limit (symbol side : string) (quantity price : pyobj)
        (timeInForce : string) (reduceOnly : bool)
| StopLimit (symbol side : string) (quantity stopPrice price : pyobj)
            (timeInForce : string) (reduceOnly : bool).

Definition place (py : runtime) (w : world) (self : BinanceFuturesRest)
    (i : intent) : M json :=
  match i with
  | Market sy sd q ro => place_market_order py w self sy sd q ro None
  | Limit sy sd q p tif ro => place_limit_order py w self sy sd q p tif ro
  | StopLimit sy sd q sp p tif ro =>
      place_stop_limit_order py w self sy sd q sp p tif ro
  end.

Definition build (i : intent) : result pydict :=
  match i with
  | Market sy sd q ro => market_payload sy sd q ro
  | Limit sy sd q p tif ro => limit_payload sy sd q p tif ro
  | StopLimit sy sd q sp p tif ro => stop_limit_payload sy sd q sp p tif ro
  end.

(* ================================================================== *)
(** * The specification's reading of the signer

    Written from the prose of the design: the parameters are laid out as
    [name=value] fields in insertion order joined by [&], and the signature
    is the lowercase hexadecimal form of HMAC (RFC 2104) with SHA-256 over
    the bytes of that string, keyed by the raw secret. *)

Module Spec.

Definition field (name value : string) : string :=
  quote_plus name ++ "=" ++ quote_plus value.

Definition fields_of (kv : string * pyval) : list string :=
  match kv with
  | (name, VStr s) => [field name s]
  | (name, VInt n) => [field name (str_of_int n)]
  | (name, VSeq l) => map (fun x => field name (str_of_scalar x)) l
  end.

Fixpoint query_string (params : pydict) : string :=
  match params with
  | [] => ""
  | kv :: rest =>
      match fields_of kv, flat_map fields_of rest with
      | [], _ => query_string rest
      | fs, [] => join "&" fs
      | fs, _ => join "&" fs ++ "&" ++ query_string rest
      end
  end.

Fixpoint xor_bytes (a b : bytes) : bytes :=
  match a, b with
  | x :: a', y :: b' => Z.lxor x y :: xor_bytes a' b'
  | _, _ => []
  end.

Definition ipad : bytes := repeat 0x36 64.
Definition opad : bytes := repeat 0x5C 64.

(** The key brought to the block length: hashed when longer, then
    zero-filled. *)
Definition block_key (key : bytes) : bytes :=
  let k := if (64 <? List.length key)%nat then hashlib.sha256 key else key in
  firstn 64 (k ++ repeat 0 64)%list.

Definition HMAC_SHA256 (key msg : bytes) : bytes :=
  let k := block_key key in
  hashlib.sha256
    (xor_bytes k opad ++ hashlib.sha256 (xor_bytes k ipad ++ msg))%list.

Definition sign (secret : bytes) (params : pydict) : string :=
  hex (HMAC_SHA256 secret (bytes_of_string (query_string params))).

End Spec.

(* ================================================================== *)
(** * Sample runs *)

Module Sample.

(** A runtime reading plain decimal digit strings. *)
Fixpoint digits_value (acc : Z) (s : string) : option Z :=
  match s with
  | EmptyString => Some acc
  | String c r =>
      if is_digit c then digits_value (10 * acc + (byte_of_ascii c - 48)) r
      else None
  end.

Definition runtime0 : runtime :=
  {| int_of_str := fun s =>
       match s, digits_value 0 s with
       | String _ _, Some n => inr n
       | _, _ => inl "invalid literal for int() with base 10"
       end;
     float_of_str := fun s =>
       if String.eqb s "0.001" then Some f_0_001
       else if String.eqb s "-1" then Some f_minus_1
       else if String.eqb s "0" then Some (Zero false)
       else None;
     str_of_json := fun j =>
       match j with
       | JInt n => str_of_int n
       | JStr s => s
       | _ => "{...}"
       end |}.

Definition client : BinanceFuturesRest :=
  __init__ "KEY" "secret" "https://testnet.binancefuture.com/".

(** A response; the sample bodies are written without their quotation
    marks. *)
Definition reply (code : Z) (why body : string) (j : string + json) : fetch :=
  Reply {| status_code := code; reason := why; resp_url := "";
           text := body; decoded := j |}.

Definition is_time_request (rq : request) : bool :=
  String.eqb (url rq) (base client ++ API_TIME_PATH).

Definition time_ok : fetch :=
  reply 200 "OK" "serverTime=1700000000000"
    (inr (JObj [("serverTime", JInt 1700000000000)])).

Definition order_ok : fetch :=
  reply 200 "OK" "orderId=1" (inr (JObj [("orderId", JInt 1)])).

(** The exchange answers both endpoints. *)
Definition world_ok : world :=
  {| transport := fun _ rq => if is_time_request rq then time_ok else order_ok;
     clock := fun _ => 1699999999999 |}.

(** Nothing is reachable; the local clock reads the same instant that
    [world_ok] serves. *)
Definition world_down : world :=
  {| transport := fun _ _ => Broken "Connection refused";
     clock := fun _ => 1700000000000 |}.

(** The order is refused with the precision error of the design's scenario. *)
Definition world_reject : world :=
  {| transport := fun _ rq =>
       if is_time_request rq then time_ok
       else reply 400 "Bad Request" "code=-1111"
              (inr (JObj [("code", JInt (-1111));
                          ("msg", JStr "Precision is over the maximum defined for this asset.")]));
     clock := fun _ => 1699999999999 |}.


Definition empty_state : state :=
  {| heap := fun _ => []; next_ref := 0%nat; sent := []; clock_reads := 0%nat;
     log := [] |}.

(** A state whose reference 0 holds [d]. *)
Definition state_with (d : pydict) : state :=
  {| heap := fun l => if Nat.eqb l 0 then d else [];
     next_ref := 1%nat; sent := []; clock_reads := 0%nat; log := [] |}.

Definition btc_market : pydict :=
  [("symbol", VStr "BTCUSDT"); ("side", VStr "BUY"); ("type", VStr "MARKET");
   ("quantity", VStr "0.001000"); ("reduceOnly", VStr "false")].

End Sample.

(** What the [try] block of [_send_signed] leaves behind, by the answer of
    the remote end: the result and the log records after the REQUEST one. *)
Definition exchange (py : runtime) (f : fetch) (res : result json)
    (tail : list (level * string)) : Prop :=
  match f with
  | Broken c =>
      res = Raise (RequestException c) /\
      tail = [(ERROR, network_error_line (RequestException c))]
  | Reply r =>
      let seen := (DEBUG, response_line r) in
      match raise_for_status r with
      | Raise he =>
          res = Raise he /\
          tail = [seen;
                  (ERROR, http_error_line he
                            match decoded r with
                            | inr j => str_of_json py j
                            | inl _ => text r
                            end)]
      | Ok _ =>
          match decoded r with
          | inr j => res = Ok j /\ tail = [seen]
          | inl m =>
              res = Raise (JSONDecodeError m) /\
              tail = [seen; (ERROR, network_error_line (JSONDecodeError m))]
          end
      end
  end.

(** Proof steps shared by the run lemmas. *)
Ltac run_step :=
  match goal with
  | |- context [match ?x with Ok _ => _ | Raise _ => _ end] =>
      destruct x eqn:?; cbn
  | |- context [if ?x then _ else _] => destruct x eqn:?; cbn
  end.

Ltac finish_tail :=
  repeat (split; [reflexivity|]); eexists;
  (split; [rewrite <- ?app_assoc; reflexivity | split; reflexivity]).




(** Further sample worlds. *)
Module Cases.


(** The time endpoint reports one half. *)
Definition world_half : world :=
  {| transport := fun _ rq =>
       if Sample.is_time_request rq
       then Sample.reply 200 "OK" "serverTime=0.5"
              (inr (JObj [("serverTime", JFloat f_half)]))
       else Sample.order_ok;
     clock := fun _ => 1699999999999 |}.

(** The order endpoint answers 200 with a body that is not JSON. *)
Definition world_garbled : world :=
  {| transport := fun _ rq =>
       if Sample.is_time_request rq then Sample.time_ok
       else Sample.reply 200 "OK" "<html>" (inl "Expecting value");
     clock := fun _ => 1699999999999 |}.

End Cases.

(** [n] slashes. *)
Fixpoint slashes (n : nat) : string :=
  match n with
  | O => ""
  | S n' => String "/" (slashes n')
  end.

(** 2^-24, about 6e-8, as a binary64 value. *)
Definition f_tiny : pyfloat := Finite false 1 (-24).

(** A runtime whose [float] reads the texts [nan], [inf] and [6e-8]. *)
Definition runtime_words : runtime :=
  {| int_of_str := int_of_str Sample.runtime0;
     float_of_str := fun s =>
       if String.eqb s "nan" then Some NaN
       else if String.eqb s "inf" then Some (Inf false)
       else if String.eqb s "5.960464477539063e-08" then Some f_tiny
       else float_of_str Sample.runtime0 s;
     str_of_json := str_of_json Sample.runtime0 |}.

(** Occurrences of a character in a text. *)
Fixpoint count_char (c : ascii) (s : string) : nat :=
  match s with
  | EmptyString => O
  | String x r => ((if Ascii.eqb x c then 1 else 0) + count_char c r)%nat
  end.

(** A mapping none of whose values is a sequence. *)
Definition scalar_valued (d : pydict) : bool :=
  forallb (fun kv => match snd kv with VSeq _ => false | _ => true end) d.

(** The characters [quote_plus] can produce. *)
Definition quoted_char (c : ascii) : bool :=
  always_safe c || Ascii.eqb c "+" || Ascii.eqb c "%".

(** The value of a hexadecimal digit. *)
Definition hex_value (c : ascii) : Z :=
  if is_digit c then byte_of_ascii c - 48
  else if in_range 65 70 c then byte_of_ascii c - 55
  else if in_range 97 102 c then byte_of_ascii c - 87
  else 0.

(** [urllib.parse.unquote_plus], the reading of what [quote_plus] writes: a
    plus sign is a space and [%XY] is the byte of value [XY]. *)
Fixpoint unquote_plus (s : string) : string :=
  match s with
  | EmptyString => EmptyString
  | String c r =>
      if Ascii.eqb c "+" then String " " (unquote_plus r)
      else if Ascii.eqb c "%" then
        match r with
        | String h (String l r') =>
            String (ascii_of_byte (16 * hex_value h + hex_value l))
                   (unquote_plus r')
        | _ => String c (unquote_plus r)
        end
      else String c (unquote_plus r)
  end.

From Stdlib Require DecimalPos DecimalZ.

(* ================================================================== *)
(** * The callers: the command line and the form

    [main] and the script of [frontend.py] print and draw besides logging, so
    they run in a process that pairs the state of the client with what has
    been shown to the user. *)

Inductive shown :=
| Line (s : string)            (* [print(s)] *)
| Help                         (* [parser.print_help()] *)
| StError (s : string)         (* [st.error(s)] *)
| StSuccess (s : string)       (* [st.success(s)] *)
| StJson (j : json).           (* [st.json(j)] *)

Record process := { core : state; screen : list shown }.

Definition P (A : Type) : Type := process -> result A * process.

Definition retP {A} (a : A) : P A := fun p => (Ok a, p).
Definition raiseP {A} (e : exn) : P A := fun p => (Raise e, p).
Definition bindP {A B} (c : P A) (k : A -> P B) : P B :=
  fun p => match c p with
           | (Ok a, p') => k a p'
           | (Raise e, p') => (Raise e, p')
           end.
Definition try_exceptP {A} (c : P A) (h : exn -> P A) : P A :=
  fun p => match c p with
           | (Ok a, p') => (Ok a, p')
           | (Raise e, p') => h e p'
           end.

(** A computation of the client, run inside the process. *)
Definition in_core {A} (c : M A) : P A :=
  fun p => let (r, s') := c (core p) in
           (r, {| core := s'; screen := screen p |}).

Definition show (x : shown) : P unit :=
  fun p => (Ok tt, {| core := core p; screen := (screen p ++ [x])%list |}).

Declare Scope proc_scope.
Delimit Scope proc_scope with proc.
Notation "x <- c ;; k" := (bindP c (fun x => k))
  (at level 61, c at next level, right associativity) : proc_scope.
Notation "c ;; k" := (bindP c (fun _ => k))
  (at level 61, right associativity) : proc_scope.

(** [a or b] on optional texts, and [not a]. *)
Definition py_or (a b : option string) : option string :=
  match a with
  | Some s => if String.eqb s "" then b else a
  | None => b
  end.

Definition falsy (a : option string) : bool :=
  match a with
  | Some s => String.eqb s ""
  | None => true
  end.

(** The text under an option known to be true. *)
Definition text_of (a : option string) : string :=
  match a with Some s => s | None => "" end.

(** [resp.items()]: only a dict has the method. *)
Definition json_items (j : json) : result (list (string * json)) :=
  match j with
  | JObj o => Ok o
  | _ => Raise (AttributeError
                  ("'" ++ type_name j ++ "' object has no attribute 'items'"))
  end.

(** The namespace that [parser.parse_args()] returns: the two optional
    credentials and the chosen sub-command with its arguments, each already
    converted by its [type]. *)
Inductive command :=
| CmdMarket (symbol side : string) (quantity : pyfloat)
| CmdLimit (symbol side : string) (quantity price : pyfloat)
           (time_in_force : string)
| CmdStopLimit (symbol side : string) (quantity stop_price price : pyfloat)
               (time_in_force : string)
| CmdOther (name : string).

Record namespace := {
  ns_api_key : option string;
  ns_api_secret : option string;
  ns_command : command
}.

(** [os.getenv] of the two variables. *)
Record environ := {
  BINANCE_API_KEY : option string;
  BINANCE_API_SECRET : option string
}.

Definition newline : string := String "010" EmptyString.

Section Callers.

(** [str(x)] of a float is left to the runtime, like the other built-ins. *)
Context (str_of_float : pyfloat -> string) (py : runtime) (w : world).

(** The three [logger.info] lines announcing an order. *)
Definition placing_line (c : command) : string :=
  match c with
  | CmdMarket symbol side quantity =>
      "Placing MARKET " ++ side ++ " order for " ++ symbol
        ++ " qty=" ++ str_of_float quantity
  | CmdLimit symbol side quantity price _ =>
      "Placing LIMIT " ++ side ++ " order for " ++ symbol
        ++ " qty=" ++ str_of_float quantity
        ++ " price=" ++ str_of_float price
  | CmdStopLimit symbol side quantity stop_price price _ =>
      "Placing STOP-LIMIT " ++ side ++ " order for " ++ symbol
        ++ " qty=" ++ str_of_float quantity
        ++ " stopPrice=" ++ str_of_float stop_price
        ++ " price=" ++ str_of_float price
  | CmdOther _ => ""
  end.

(** The [if]/[elif] chain of [main]: [Some resp] when an order was placed,
    [None] for the [return] of the last branch. *)
Definition dispatch (client : BinanceFuturesRest) (c : command)
  : M (option json) :=
  match c with
  | CmdMarket symbol side quantity =>
      logger INFO (placing_line c) ;;
      resp <- place_market_order py w client (upper symbol) (upper side)
                (PFloat quantity) false None ;;
      ret (Some resp)
  | CmdLimit symbol side quantity price time_in_force =>
      logger INFO (placing_line c) ;;
      resp <- place_limit_order py w client (upper symbol) (upper side)
                (PFloat quantity) (PFloat price) time_in_force false ;;
      ret (Some resp)
  | CmdStopLimit symbol side quantity stop_price price time_in_force =>
      logger INFO (placing_line c) ;;
      resp <- place_stop_limit_order py w client (upper symbol) (upper side)
                (PFloat quantity) (PFloat stop_price) (PFloat price)
                time_in_force false ;;
      ret (Some resp)
  | CmdOther _ =>
      logger ERROR "Unknown command" ;;
      ret None
  end.

(** [for k, v in resp.items(): print(f"{k}: {v}")] *)
Fixpoint print_items (o : list (string * json)) : P unit :=
  match o with
  | [] => retP tt
  | (k, v) :: rest =>
      (show (Line (k ++ ": " ++ str_of_json py v)) ;; print_items rest)%proc
  end.

(** The part of [main] after the parser has run. *)
Definition main (args : namespace) (env : environ) : P unit :=
  let api_key := py_or (ns_api_key args) (BINANCE_API_KEY env) in
  let api_secret := py_or (ns_api_secret args) (BINANCE_API_SECRET env) in
  if falsy api_key || falsy api_secret then
    (in_core (logger ERROR
                "API credentials required via flags or environment variables") ;;
     show Help)%proc
  else
    let client := __init__ (text_of api_key) (text_of api_secret) TESTNET_BASE in
    try_exceptP
      (placed <- in_core (dispatch client (ns_command args)) ;;
       match placed with
       | None => retP tt
       | Some resp =>
           in_core (logger INFO "Order response:") ;;
           in_core (logger INFO (str_of_json py resp)) ;;
           show (Line (newline ++ "--- ORDER RESULT ---")) ;;
           items <- (fun p => (json_items resp, p)) ;;
           print_items items ;;
           show (Line ("--------------------" ++ newline))
       end)%proc
      (fun e => in_core (logger ERROR ("Failed to place order: " ++ str_exn e))).

(** The script of [frontend.py] once the button is pressed, by the values of
    its widgets. *)
Definition frontend (api_key api_secret symbol side order_type : string)
    (quantity price_input stop_input : pyfloat) : P unit :=
  let price :=
    if String.eqb order_type "LIMIT" || String.eqb order_type "STOP-LIMIT"
    then PFloat price_input else PNone in
  let stop_price :=
    if String.eqb order_type "STOP-LIMIT" then PFloat stop_input else PNone in
  if String.eqb api_key "" || String.eqb api_secret "" then
    show (StError "Please enter both API Key and Secret.")
  else
    let bot := __init__ api_key api_secret TESTNET_BASE in
    try_exceptP
      (resp <- in_core
                 (if String.eqb order_type "MARKET" then
                    place_market_order py w bot symbol side (PFloat quantity)
                      false None
                  else if String.eqb order_type "LIMIT" then
                    place_limit_order py w bot symbol side (PFloat quantity)
                      price "GTC" false
                  else
                    place_stop_limit_order py w bot symbol side
                      (PFloat quantity) stop_price price "GTC" false) ;;
       show (StSuccess "✅ Order Placed Successfully!") ;;
       show (StJson resp))%proc
      (fun e => show (StError ("❌ Error placing order: " ++ str_exn e))).

End Callers.


(** The lines printed for the entries of a response. *)
Definition item_lines (py : runtime) (o : list (string * json)) : list shown :=
  map (fun kv => Line (fst kv ++ ": " ++ str_of_json py (snd kv))) o.

(** The intent that the form stands for, by the values of its widgets. *)
Definition form_intent (symbol side order_type : string)
    (quantity price_input stop_input : pyfloat) : intent :=
  let price :=
    if String.eqb order_type "LIMIT" || String.eqb order_type "STOP-LIMIT"
    then PFloat price_input else PNone in
  let stop_price :=
    if String.eqb order_type "STOP-LIMIT" then PFloat stop_input else PNone in
  if String.eqb order_type "MARKET" then
    Market symbol side (PFloat quantity) false
  else if String.eqb order_type "LIMIT" then
    Limit symbol side (PFloat quantity) price "GTC" false
  else
    StopLimit symbol side (PFloat quantity) stop_price price "GTC" false.

(** A market order typed in lower case, the key taken from the environment. *)
Definition sample_args : namespace :=
  {| ns_api_key := None; ns_api_secret := Some "secret";
     ns_command := CmdMarket "btcusdt" "buy" f_0_001 |}.

Definition sample_env : environ :=
  {| BINANCE_API_KEY := Some "KEY"; BINANCE_API_SECRET := Some "ignored" |}.

Definition fresh_process : process :=
  {| core := Sample.empty_state; screen := [] |}.

(** The exchange accepts the order and answers with a JSON array. *)
Definition world_array : world :=
  {| transport := fun _ rq =>
       if Sample.is_time_request rq then Sample.time_ok
       else Sample.reply 200 "OK" "[1]" (inr (JArr [JInt 1]));
     clock := fun _ => 1699999999999 |}.

(* ================================================================== *)
(** * Known answers *)

(** Known answers: FIPS 180-4 "abc", and RFC 4231 test case 2. *)
Example sha256_abc :
  hex (hashlib.sha256 (bytes_of_string "abc"))
  = "ba7816bf8f01cfea414140de5dae2223b00361a396177a9cb410ff61f20015ad".
Proof. vm_compute. reflexivity. Qed.

Example sha256_empty :
  hex (hashlib.sha256 [])
  = "e3b0c44298fc1c149afbf4c8996fb92427ae41e4649b934ca495991b7852b855".
Proof. vm_compute. reflexivity. Qed.

Example hmac_rfc4231_case2 :
  hmac.hexdigest (hmac.new (bytes_of_string "Jefe")
                    (bytes_of_string "what do ya want for nothing?"))
  = "5bdcc146bf60754e6a042426089575c75a003f089d2739839dec58b964ec3843".
Proof. vm_compute. reflexivity. Qed.

Example format_f_0_001 : format_f f_0_001 = "0.001000".
Proof. reflexivity. Qed.

Example format_f_minus_1 : format_f f_minus_1 = "-1.000000".
Proof. reflexivity. Qed.

Example format_f_69000 : format_f f_69000 = "69000.000000".
Proof. reflexivity. Qed.

(** Below and above one half of the last place, and the two kinds of tie. *)
Example format_f_rounding :
  format_f (Finite false 1 (-21)) = "0.000000" /\
  format_f (Finite false 3 (-21)) = "0.000001" /\
  format_f (Finite false 5 (-7)) = "0.039062" /\
  format_f (Finite false 15 (-7)) = "0.117188".
Proof. repeat split; reflexivity. Qed.

Example urlencode_insertion_order :
  urlencode [("symbol", VStr "BTCUSDT"); ("b", VSeq [SStr "x y"; SInt 2]);
             ("a", VStr "1/2"); ("timestamp", VInt 17)]
  = "symbol=BTCUSDT&b=x+y&b=2&a=1%2F2&timestamp=17".
Proof. reflexivity. Qed.

(* ================================================================== *)
(** * Strings, hexadecimal text and percent-encoding *)

Section StringFacts.

Lemma app_str_assoc (a b c : string) : (a ++ b) ++ c = a ++ (b ++ c).
Proof. induction a as [|x a IH]; simpl; [reflexivity | now rewrite IH]. Qed.

Lemma str_forall_impl (p q : ascii -> bool) (s : string) :
  (forall c, p c = true -> q c = true) ->
  str_forall p s = true -> str_forall q s = true.
Proof.
  intros Hpq. induction s as [|c s IH]; simpl; [reflexivity|].
  rewrite !andb_true_iff. intros [Hc Hs]. split; auto.
Qed.

Lemma in_range_spec lo hi c :
  in_range lo hi c = true <-> lo <= byte_of_ascii c <= hi.
Proof. unfold in_range. rewrite andb_true_iff, !Z.leb_le. tauto. Qed.

Lemma lower_hex_safe c : is_lower_hex c = true -> always_safe c = true.
Proof.
  unfold is_lower_hex, always_safe. rewrite orb_true_iff.
  intros [Hd | Hh].
  - rewrite Hd. now rewrite !orb_true_r.
  - assert (Hl : is_lower c = true).
    { unfold is_lower. apply in_range_spec. apply in_range_spec in Hh. lia. }
    rewrite Hl. now rewrite orb_true_r.
Qed.

Lemma quote_plus_safe (s : string) :
  str_forall always_safe s = true -> quote_plus s = s.
Proof.
  induction s as [|c s IH]; simpl; [reflexivity|].
  rewrite andb_true_iff. intros [Hc Hs].
  unfold quote_char. rewrite Hc. simpl. now rewrite IH.
Qed.

(** A property of the integers below a bound, checked value by value. *)
Lemma below_bound (P : Z -> Prop) (b : nat) :
  (forall k, (k < b)%nat -> P (Z.of_nat k)) ->
  forall n, 0 <= n < Z.of_nat b -> P n.
Proof.
  intros H n Hn. rewrite <- (Z2Nat.id n) by lia. apply H. lia.
Qed.

Lemma hex_digit_lower n : 0 <= n < 16 -> is_lower_hex (hex_digit n) = true.
Proof.
  apply (below_bound (fun n => is_lower_hex (hex_digit n) = true) 16).
  intros k Hk. do 16 (destruct k as [|k]; [reflexivity|]). lia.
Qed.

Lemma hex_lower (bs : bytes) : str_forall is_lower_hex (hex bs) = true.
Proof.
  induction bs as [|b bs IH]; simpl; [reflexivity|].
  rewrite !hex_digit_lower, IH; try reflexivity;
    apply Z.mod_pos_bound; lia.
Qed.

Lemma hex_length (bs : bytes) :
  String.length (hex bs) = (2 * List.length bs)%nat.
Proof. induction bs as [|b bs IH]; simpl; [reflexivity | rewrite IH; lia]. Qed.

Lemma quote_plus_hex (bs : bytes) : quote_plus (hex bs) = hex bs.
Proof.
  apply quote_plus_safe.
  apply str_forall_impl with (p := is_lower_hex); [apply lower_hex_safe|].
  apply hex_lower.
Qed.

End StringFacts.

(** ** The digest *)

Lemma sha256_length (msg : bytes) : List.length (hashlib.sha256 msg) = 32%nat.
Proof. reflexivity. Qed.

Lemma hmac_digest_length (h : hmac.HMAC) : List.length (hmac.digest h) = 32%nat.
Proof. apply sha256_length. Qed.

Lemma _sign_length self d : String.length (_sign self d) = 64%nat.
Proof.
  unfold _sign, hmac.hexdigest. now rewrite hex_length, hmac_digest_length.
Qed.

Lemma _sign_lower_hex self d : str_forall is_lower_hex (_sign self d) = true.
Proof. unfold _sign, hmac.hexdigest. apply hex_lower. Qed.

Lemma quote_plus_sign self d : quote_plus (_sign self d) = _sign self d.
Proof. unfold _sign, hmac.hexdigest. apply quote_plus_hex. Qed.

(** ** Joining and the query string *)

Lemma join_cons sep x (l : list string) :
  l <> [] -> join sep (x :: l) = x ++ sep ++ join sep l.
Proof. destruct l; [congruence | reflexivity]. Qed.

Lemma join_app sep (l1 l2 : list string) :
  l1 <> [] -> l2 <> [] ->
  join sep (l1 ++ l2) = join sep l1 ++ sep ++ join sep l2.
Proof.
  intros H1 H2. induction l1 as [|x [|y l1] IH]; [congruence | |].
  - simpl app. now apply join_cons.
  - change ((x :: y :: l1) ++ l2)%list with (x :: ((y :: l1) ++ l2))%list.
    rewrite join_cons by discriminate.
    rewrite IH by discriminate.
    rewrite (join_cons sep x (y :: l1)) by discriminate.
    now rewrite !app_str_assoc.
Qed.

Lemma encode_item_fields kv : encode_item kv = Spec.fields_of kv.
Proof. destruct kv as [k [s | n | l]]; reflexivity. Qed.

Lemma urlencode_query_string (d : pydict) : urlencode d = Spec.query_string d.
Proof.
  unfold urlencode. induction d as [|kv d IH]; [reflexivity|].
  simpl flat_map. simpl Spec.query_string.
  rewrite <- encode_item_fields, <- IH.
  assert (E : flat_map Spec.fields_of d = flat_map encode_item d).
  { apply flat_map_ext. intros a. symmetry. apply encode_item_fields. }
  rewrite E.
  destruct (encode_item kv) as [|f fs] eqn:Ef; [reflexivity|].
  destruct (flat_map encode_item d) as [|g gs] eqn:Eg.
  - now rewrite app_nil_r.
  - apply join_app; discriminate.
Qed.

(** ** Python's HMAC object against the RFC 2104 formula *)

Lemma xor_bytes_repeat (x : Z) (k : bytes) :
  Spec.xor_bytes k (repeat x (List.length k)) = hmac.translate x k.
Proof.
  induction k as [|b k IH]; simpl; [reflexivity|].
  now rewrite IH, Z.lxor_comm.
Qed.

Lemma xor_bytes_block (x : Z) (k : bytes) :
  List.length k = 64%nat ->
  Spec.xor_bytes k (repeat x 64) = hmac.translate x k.
Proof. intros H. rewrite <- H. apply xor_bytes_repeat. Qed.

Lemma ljust_length (k : bytes) :
  (List.length k <= 64)%nat -> List.length (hmac.ljust 64 k) = 64%nat.
Proof.
  intros H. unfold hmac.ljust. rewrite length_app, repeat_length. lia.
Qed.

Lemma ljust_firstn (k : bytes) :
  (List.length k <= 64)%nat ->
  firstn 64 (k ++ repeat 0 64) = hmac.ljust 64 k.
Proof.
  intros H. unfold hmac.ljust.
  replace 64%nat with (List.length k + (64 - List.length k))%nat at 1 by lia.
  rewrite firstn_app_2.
  f_equal.
  replace 64%nat with ((64 - List.length k) + List.length k)%nat at 2 by lia.
  rewrite repeat_app, firstn_app, repeat_length.
  replace (64 - List.length k - (64 - List.length k))%nat with 0%nat by lia.
  rewrite firstn_O, app_nil_r.
  apply firstn_all2. rewrite repeat_length. lia.
Qed.

Lemma hashed_key_length (key : bytes) :
  (List.length (if (64 <? List.length key)%nat
                then hashlib.sha256 key else key) <= 64)%nat.
Proof.
  destruct (64 <? List.length key)%nat eqn:E.
  - rewrite sha256_length. lia.
  - apply Nat.ltb_ge in E. exact E.
Qed.

Lemma hmac_new_digest (key msg : bytes) :
  hmac.digest (hmac.new key msg) = Spec.HMAC_SHA256 key msg.
Proof.
  unfold hmac.digest, hmac.new, Spec.HMAC_SHA256, Spec.block_key,
    Spec.ipad, Spec.opad, hashlib.block_size.
  cbv beta zeta. simpl hmac.inner. simpl hmac.outer.
  pose proof (hashed_key_length key) as Hk.
  set (k := if (64 <? List.length key)%nat then hashlib.sha256 key else key) in *.
  rewrite (ljust_firstn k Hk).
  now rewrite !xor_bytes_block by (apply ljust_length, Hk).
Qed.

(* ================================================================== *)
(** * Dictionaries *)

Section DictFacts.

Lemma has_key_cons k k' v (d : pydict) :
  has_key k ((k', v) :: d) = String.eqb k k' || has_key k d.
Proof. reflexivity. Qed.

Lemma setitem_fresh (d : pydict) k v :
  has_key k d = false -> setitem d k v = (d ++ [(k, v)])%list.
Proof.
  induction d as [|[k' v'] d IH]; [reflexivity|].
  rewrite has_key_cons, orb_false_iff. intros [Hk Hd].
  simpl. rewrite Hk. now rewrite IH.
Qed.

Lemma has_key_setitem_same (d : pydict) k v : has_key k (setitem d k v) = true.
Proof.
  induction d as [|[k' v'] d IH]; simpl.
  - rewrite has_key_cons, String.eqb_refl. reflexivity.
  - destruct (String.eqb k k') eqn:E; rewrite has_key_cons, E; [reflexivity|].
    exact IH.
Qed.

Lemma has_key_setitem_other (d : pydict) k k' v :
  String.eqb k k' = false -> has_key k (setitem d k' v) = has_key k d.
Proof.
  intros Hne. induction d as [|[k0 v0] d IH]; simpl.
  - rewrite has_key_cons, Hne. reflexivity.
  - destruct (String.eqb k' k0) eqn:E; rewrite !has_key_cons.
    + reflexivity.
    + now rewrite IH.
Qed.

Lemma has_key_setitem_mono (d : pydict) k k' v :
  has_key k d = true -> has_key k (setitem d k' v) = true.
Proof.
  intros H. destruct (String.eqb k k') eqn:E.
  - apply String.eqb_eq in E. subst. apply has_key_setitem_same.
  - now rewrite has_key_setitem_other.
Qed.

Lemma keys_app (d1 d2 : pydict) : keys (d1 ++ d2)%list = (keys d1 ++ keys d2)%list.
Proof. apply map_app. Qed.

Lemma getitem_setitem_other (d : pydict) k k' v :
  String.eqb k k' = false -> getitem (setitem d k' v) k = getitem d k.
Proof.
  intros Hne. induction d as [|[k0 v0] d IH]; simpl.
  - now rewrite Hne.
  - destruct (String.eqb k' k0) eqn:E; simpl.
    + apply String.eqb_eq in E. subst k0. now rewrite Hne.
    + now rewrite IH.
Qed.

Lemma getitem_setitem_same (d : pydict) k v :
  getitem (setitem d k v) k = Some v.
Proof.
  induction d as [|[k' v'] d IH]; simpl.
  - now rewrite String.eqb_refl.
  - destruct (String.eqb k k') eqn:E; simpl; rewrite E; [reflexivity | exact IH].
Qed.

Lemma flat_map_encode_snoc (d : pydict) k s :
  flat_map encode_item (d ++ [(k, VStr s)])%list
  = (flat_map encode_item d ++ [(quote_plus k ++ "=" ++ quote_plus s)%string])%list.
Proof. rewrite flat_map_app. reflexivity. Qed.

(** A dictionary holding an integer under some key encodes to at least one
    field. *)
Lemma encode_setitem_int_nonempty (d : pydict) k n :
  flat_map encode_item (setitem d k (VInt n)) <> [].
Proof.
  induction d as [|[k' v'] d IH]; simpl; [discriminate|].
  destruct (String.eqb k k'); simpl.
  - discriminate.
  - intros H. apply app_eq_nil in H. tauto.
Qed.

(** Adding the signature to a timestamped mapping extends its encoding by
    one field. *)
Lemma urlencode_with_signature (d : pydict) n sig :
  has_key "signature" d = false -> quote_plus sig = sig ->
  urlencode (setitem (setitem d "timestamp" (VInt n)) "signature" (VStr sig))
  = urlencode (setitem d "timestamp" (VInt n)) ++ "&signature=" ++ sig.
Proof.
  intros Hfresh Hq.
  rewrite setitem_fresh by now rewrite has_key_setitem_other.
  unfold urlencode. rewrite flat_map_encode_snoc.
  rewrite join_app; [| apply encode_setitem_int_nonempty | discriminate].
  now rewrite Hq.
Qed.

End DictFacts.

(* ================================================================== *)
(** * Runs of the client *)

Section RunFacts.

Context (py : runtime) (w : world) (self : BinanceFuturesRest).

Lemma fetch_server_time_frame s r s1 :
  fetch_server_time py w self s = (r, s1) ->
  heap s1 = heap s /\ next_ref s1 = next_ref s /\
  sent s1 = (sent s ++ [time_request self])%list /\
  clock_reads s1 = clock_reads s.
Proof.
  unfold fetch_server_time, bind, session_request, lift, raise, ret.
  destruct (transport w (sent s) (time_request self)) as [rp|c]; cbn;
    repeat run_step; intros [= <- <-]; cbn; auto.
Qed.

(** The time source always yields an integer; it touches neither the store
    nor anything but its own request. *)
Lemma _get_timestamp_run s :
  exists ts s1,
    _get_timestamp py w self s = (Ok ts, s1) /\
    heap s1 = heap s /\ next_ref s1 = next_ref s /\
    sent s1 = (sent s ++ [time_request self])%list.
Proof.
  unfold _get_timestamp, bind, try_except.
  destruct (fetch_server_time py w self s) as [[[n|]|e] s1] eqn:E;
    apply fetch_server_time_frame in E; destruct E as (Hh & Hn & Hs & Hc);
    cbn; eexists; eexists; (split; [reflexivity|]); cbn; auto.
Qed.

Lemma upd_same h l d : upd h l d l = d.
Proof. unfold upd. now rewrite Nat.eqb_refl. Qed.

Lemma upd_other h l d l' : l' <> l -> upd h l d l' = h l'.
Proof. intros H. unfold upd. apply Nat.eqb_neq in H. now rewrite H. Qed.

Lemma raise_for_status_HTTPError r e :
  raise_for_status r = Raise e -> exists m, e = HTTPError m r.
Proof.
  unfold raise_for_status.
  repeat match goal with
         | |- context [if ?c then _ else _] => destruct c
         end; intros [= <-]; eauto.
Qed.

Lemma try_request_run method u body d s :
  let rq := order_request method u body d in
  let run := try_request py w method u body d s in
  heap (snd run) = heap s /\ next_ref (snd run) = next_ref s /\
  sent (snd run) = (sent s ++ [rq])%list /\
  clock_reads (snd run) = clock_reads s /\
  exists tail,
    log (snd run) = (log s ++ tail)%list /\
    exchange py (transport w (sent s) rq) (fst run) (tail).
Proof.
  intros rq run. subst run.
  unfold try_request, try_except, bind, session_request, exchange.
  fold rq.
  destruct (transport w (sent s) rq) as [r|c]; cbn.
  - destruct (raise_for_status r) as [[]|e] eqn:Er; cbn.
    + unfold r_json. destruct (decoded r) as [m|j]; cbn; finish_tail.
    + destruct (raise_for_status_HTTPError _ _ Er) as [m ->]. cbn.
      unfold r_json. destruct (decoded r) as [m'|j]; cbn; finish_tail.
  - finish_tail.
Qed.

Lemma _send_signed_run method path l s ts s1 :
  _get_timestamp py w self s = (Ok ts, s1) ->
  let d1 := setitem (heap s l) "timestamp" (VInt ts) in
  let d2 := setitem d1 "signature" (VStr (_sign self d1)) in
  let rq := order_request method (base self ++ path) (urlencode d2) d2 in
  let run := _send_signed py w self method path l s in
  heap (snd run) l = d2 /\
  (forall l', l' <> l -> heap (snd run) l' = heap s l') /\
  next_ref (snd run) = next_ref s /\
  sent (snd run) = (sent s ++ [time_request self; rq])%list /\
  exists tail,
    log (snd run)
    = (log s1 ++ (DEBUG, request_line method (base self ++ path) (urlencode d2))
                   :: tail)%list /\
    exchange py (transport w (sent s ++ [time_request self]) rq) (fst run) tail.
Proof.
  intros Hts.
  destruct (_get_timestamp_run s) as (ts' & s1' & E & Hh & Hn & Hs).
  rewrite Hts in E. injection E as <- <-.
  intros d1 d2 rq run.
  assert (R : run = try_request py w method (base self ++ path) (urlencode d2) d2
                      {| heap := upd (upd (heap s1) l d1) l d2;
                         next_ref := next_ref s1; sent := sent s1;
                         clock_reads := clock_reads s1;
                         log := (log s1 ++ [(DEBUG, request_line method
                                   (base self ++ path) (urlencode d2))])%list |}).
  { subst run. unfold _send_signed, bind. rewrite Hts.
    unfold read, write, logger. cbn. rewrite !upd_same.
    rewrite Hh. reflexivity. }
  rewrite R. clear R run.
  match goal with
  | |- context [try_request py w ?m ?u ?b ?d ?st] =>
      destruct (try_request_run m u b d st) as (Th & Tn & Ts & _ & tail & Tl & Tx)
  end.
  cbn in Th, Tn, Ts, Tl, Tx.
  rewrite Th, Tn, Ts, Tl. clear Th Tn Ts Tl.
  rewrite Hs, Hn, Hh in *.
  split; [apply upd_same|].
  split. { intros l' Hl. now rewrite !upd_other. }
  split; [reflexivity|].
  split. { now rewrite <- app_assoc. }
  exists tail. split; [now rewrite <- app_assoc | exact Tx].
Qed.

End RunFacts.

Lemma skipn_sent {A} (l new : list A) : skipn (List.length l) (l ++ new) = new.
Proof.
  rewrite skipn_app, skipn_all, Nat.sub_diag. reflexivity.
Qed.

(* ================================================================== *)
(** * Decimal text *)

Section DecimalFacts.

Lemma uint_digits (d : uint) :
  str_forall is_digit (NilEmpty.string_of_uint d) = true.
Proof. induction d; simpl; auto. Qed.

Lemma uint_text (d : uint) :
  NilZero.string_of_uint d <> "" /\
  str_forall is_digit (NilZero.string_of_uint d) = true.
Proof.
  destruct d; (split; [discriminate|]);
    try reflexivity; apply (uint_digits (_ d)).
Qed.

Lemma str_of_int_digits (n : Z) :
  0 <= n -> str_of_int n <> "" /\ str_forall is_digit (str_of_int n) = true.
Proof.
  intros Hn. unfold str_of_int.
  destruct n as [|p|p]; [apply uint_text | apply uint_text | lia].
Qed.

Lemma digit_char_digit n : is_digit (digit_char (n mod 10)) = true.
Proof.
  apply (below_bound (fun d => is_digit (digit_char d) = true) 10).
  - intros k Hk. do 10 (destruct k as [|k]; [reflexivity|]). lia.
  - apply Z.mod_pos_bound. lia.
Qed.

Lemma decimals6_digits r :
  String.length (decimals6 r) = 6%nat /\
  str_forall is_digit (decimals6 r) = true.
Proof.
  split; [reflexivity|].
  unfold decimals6. simpl. now rewrite !digit_char_digit.
Qed.

Lemma scaled6_nonneg m e : 0 <= scaled6 m e.
Proof.
  unfold scaled6. destruct (0 <=? e) eqn:He.
  - apply Z.leb_le in He.
    apply Z.mul_nonneg_nonneg; [|lia].
    apply Z.mul_nonneg_nonneg; [lia|]. now apply Z.pow_nonneg.
  - apply Z.leb_gt in He.
    assert (Hd : 0 < 2 ^ (- e)) by (apply Z.pow_pos_nonneg; lia).
    assert (Hq : 0 <= Z.pos m * 1000000 / 2 ^ (- e))
      by (apply Z.div_pos; lia).
    cbv zeta.
    destruct (_ || _); lia.
Qed.

(** A non-negative scaled value prints as digits, a point, six digits. *)
Lemma fixed6_shape n :
  0 <= n ->
  exists ip fp,
    fixed6 n = ip ++ "." ++ fp /\
    ip <> "" /\ str_forall is_digit ip = true /\
    String.length fp = 6%nat /\ str_forall is_digit fp = true.
Proof.
  intros Hn. unfold fixed6.
  exists (str_of_int (n / 1000000)), (decimals6 (n mod 1000000)).
  split; [reflexivity|].
  assert (Hq : 0 <= n / 1000000) by (apply Z.div_pos; lia).
  destruct (str_of_int_digits _ Hq) as [Hne Hdig].
  destruct (decimals6_digits (n mod 1000000)) as [Hlen Hfd].
  auto.
Qed.

End DecimalFacts.

(* ================================================================== *)
(** * Properties of the signed-request core *)

(** C1.  When [_send_signed] is called with a payload that has no
    ['signature'] entry, the signature is the HMAC of the serialization of
    the payload with the timestamp set and nothing else: the mapping that is
    signed has no ['signature'] key, the final mapping is the signed one with
    ['signature'] added at the end, and the encoded body is the signed string
    followed by [&signature=<value>]. *)
Theorem C1_signature_over_other_params :
  forall py w self method path l s,
    has_key "signature" (heap s l) = false ->
    exists ts s1,
      _get_timestamp py w self s = (Ok ts, s1) /\
      let signed := setitem (heap s l) "timestamp" (VInt ts) in
      let sig := hmac.hexdigest (hmac.new (api_secret self)
                                   (bytes_of_string (urlencode signed))) in
      let run := _send_signed py w self method path l s in
      let final := heap (snd run) l in
      has_key "signature" signed = false /\
      final = (signed ++ [("signature", VStr sig)])%list /\
      last (keys final) "" = "signature" /\
      urlencode final = urlencode signed ++ "&signature=" ++ sig /\
      sent_during (_send_signed py w self method path l) s
      = [time_request self;
         order_request method (base self ++ path) (urlencode final) final].
Proof.
  intros py w self method path l s Hfresh.
  destruct (_get_timestamp_run py w self s) as (ts & s1 & Hts & _).
  exists ts, s1. split; [exact Hts|].
  destruct (_send_signed_run py w self method path l s ts s1 Hts)
    as (Hfinal & _ & _ & Hsent & _).
  cbv zeta. unfold sent_during. rewrite Hsent, Hfinal, skipn_sent.
  set (signed := setitem (heap s l) "timestamp" (VInt ts)) in *.
  fold (_sign self signed).
  assert (Hs : has_key "signature" signed = false).
  { subst signed. now rewrite has_key_setitem_other. }
  rewrite (setitem_fresh signed "signature" _ Hs).
  split; [exact Hs|]. split; [reflexivity|].
  split. { rewrite keys_app. apply last_last. }
  split; [|reflexivity].
  rewrite <- (setitem_fresh signed "signature" _ Hs).
  subst signed. apply urlencode_with_signature; [exact Hfresh|].
  apply quote_plus_sign.
Qed.

(** A market payload submitted through a reachable exchange. *)
Lemma C1_witness :
  has_key "signature" (heap (Sample.state_with Sample.btc_market) 0%nat) = false /\
  exists ts s1,
    _get_timestamp Sample.runtime0 Sample.world_ok Sample.client
      (Sample.state_with Sample.btc_market) = (Ok ts, s1) /\
    let signed := setitem (heap (Sample.state_with Sample.btc_market) 0%nat)
                    "timestamp" (VInt ts) in
    let sig := hmac.hexdigest (hmac.new (api_secret Sample.client)
                                 (bytes_of_string (urlencode signed))) in
    let run := _send_signed Sample.runtime0 Sample.world_ok Sample.client
                 "POST" API_ORDER_PATH 0%nat (Sample.state_with Sample.btc_market) in
    let final := heap (snd run) 0%nat in
    has_key "signature" signed = false /\
    final = (signed ++ [("signature", VStr sig)])%list /\
    last (keys final) "" = "signature" /\
    urlencode final = urlencode signed ++ "&signature=" ++ sig /\
    sent_during (_send_signed Sample.runtime0 Sample.world_ok Sample.client
                   "POST" API_ORDER_PATH 0%nat) (Sample.state_with Sample.btc_market)
    = [time_request Sample.client;
       order_request "POST" (base Sample.client ++ API_ORDER_PATH)
         (urlencode final) final].
Proof.
  split; [reflexivity|].
  apply (C1_signature_over_other_params Sample.runtime0 Sample.world_ok
           Sample.client "POST" API_ORDER_PATH 0%nat
           (Sample.state_with Sample.btc_market)).
  reflexivity.
Defined.

(** C2.  [_sign] is the lowercase hexadecimal text of HMAC-SHA256, keyed by
    the secret bytes, over the bytes of the query string of the parameters in
    insertion order: it agrees with the signer written from the design, its
    value is sixty-four characters drawn from [0-9a-f], and it is a function
    of the secret and the serialization alone. *)
Theorem C2_sign_is_hmac_sha256_hex :
  forall self d,
    _sign self d = Spec.sign (api_secret self) d /\
    _sign self d
    = hex (Spec.HMAC_SHA256 (api_secret self) (bytes_of_string (urlencode d))) /\
    String.length (_sign self d) = 64%nat /\
    str_forall is_lower_hex (_sign self d) = true.
Proof.
  intros self d.
  assert (E : _sign self d
              = hex (Spec.HMAC_SHA256 (api_secret self)
                       (bytes_of_string (urlencode d)))).
  { unfold _sign, hmac.hexdigest. now rewrite hmac_new_digest. }
  split.
  - rewrite E. unfold Spec.sign. now rewrite urlencode_query_string.
  - split; [exact E|].
    split; [apply _sign_length | apply _sign_lower_hex].
Qed.


(** C4.  The payload built for each order type holds exactly the fields of
    the table, in the order the wrapper lists them, with the wire type
    MARKET, LIMIT or STOP and [reduceOnly] as the text [true] or [false].
    The LIMIT payload has seven entries.  Each operation of the client
    builds this mapping, stores it and hands it to [_send_signed]. *)
Theorem C4_payload_fields :
  forall symbol side q p sp tif (ro : bool),
    let flag := if ro then "true" else "false" in
    build (Market symbol side (PFloat q) ro)
    = Ok [("symbol", VStr symbol); ("side", VStr side);
          ("type", VStr "MARKET"); ("quantity", VStr (format_f q));
          ("reduceOnly", VStr flag)] /\
    build (Limit symbol side (PFloat q) (PFloat p) tif ro)
    = Ok [("symbol", VStr symbol); ("side", VStr side);
          ("type", VStr "LIMIT"); ("timeInForce", VStr tif);
          ("quantity", VStr (format_f q)); ("price", VStr (format_f p));
          ("reduceOnly", VStr flag)] /\
    build (StopLimit symbol side (PFloat q) (PFloat sp) (PFloat p) tif ro)
    = Ok [("symbol", VStr symbol); ("side", VStr side);
          ("type", VStr "STOP"); ("quantity", VStr (format_f q));
          ("stopPrice", VStr (format_f sp)); ("price", VStr (format_f p));
          ("timeInForce", VStr tif); ("reduceOnly", VStr flag)] /\
    (forall i py w self s,
        place py w self i s
        = (d <- lift (build i) ;;
           payload <- alloc d ;;
           _send_signed py w self "POST" API_ORDER_PATH payload) s).
Proof.
  intros symbol side q p sp tif ro flag. subst flag.
  repeat split; try (destruct ro; reflexivity).
  intros i; destruct i; reflexivity.
Qed.

(** ** The order operations *)

Section PlaceFacts.

Context (py : runtime) (w : world) (self : BinanceFuturesRest).

(** The time source reads only the session history, the clock and the log. *)
Lemma _get_timestamp_frame s s' :
  sent s = sent s' -> clock_reads s = clock_reads s' -> log s = log s' ->
  fst (_get_timestamp py w self s) = fst (_get_timestamp py w self s') /\
  log (snd (_get_timestamp py w self s))
  = log (snd (_get_timestamp py w self s')).
Proof.
  intros Hs Hc Hl.
  unfold _get_timestamp, try_except, bind, fetch_server_time, bind,
    session_request, lift, raise, ret, logger, time_ms.
  rewrite <- Hs, <- Hc, <- Hl.
  destruct (transport w (sent s) (time_request self)) as [r|c]; cbn;
    repeat run_step; split; reflexivity.
Qed.

Lemma place_unfold i s :
  place py w self i s
  = (d <- lift (build i) ;; payload <- alloc d ;;
     _send_signed py w self "POST" API_ORDER_PATH payload) s.
Proof. destruct i; reflexivity. Qed.

Lemma place_rejected i e s :
  build i = Raise e -> place py w self i s = (Raise e, s).
Proof.
  intros H. rewrite place_unfold. unfold bind. now rewrite H.
Qed.

Lemma place_run i d s ts :
  build i = Ok d ->
  fst (_get_timestamp py w self s) = Ok ts ->
  let d1 := setitem d "timestamp" (VInt ts) in
  let d2 := setitem d1 "signature" (VStr (_sign self d1)) in
  let u := base self ++ API_ORDER_PATH in
  let rq := order_request "POST" u (urlencode d2) d2 in
  let run := place py w self i s in
  heap (snd run) (next_ref s) = d2 /\
  (forall l, l <> next_ref s -> heap (snd run) l = heap s l) /\
  sent (snd run) = (sent s ++ [time_request self; rq])%list /\
  exists tail,
    log (snd run)
    = (log (snd (_get_timestamp py w self s))
         ++ (DEBUG, request_line "POST" u (urlencode d2)) :: tail)%list /\
    exchange py (transport w (sent s ++ [time_request self]) rq) (fst run) tail.
Proof.
  intros Hb Hts d1 d2 u rq run.
  set (sa := {| heap := upd (heap s) (next_ref s) d;
                next_ref := S (next_ref s); sent := sent s;
                clock_reads := clock_reads s; log := log s |}).
  assert (R0 : run = _send_signed py w self "POST" API_ORDER_PATH (next_ref s) sa).
  { subst run. rewrite place_unfold. unfold bind at 1. now rewrite Hb. }
  clearbody run. subst run.
  destruct (_get_timestamp_frame sa s eq_refl eq_refl eq_refl) as [Ef El].
  rewrite Hts in Ef.
  destruct (_get_timestamp py w self sa) as [r sa1] eqn:Ea.
  cbn in Ef, El. subst r.
  pose proof (_send_signed_run py w self "POST" API_ORDER_PATH (next_ref s)
                sa ts sa1 Ea) as R.
  cbv zeta in R.
  replace (heap sa (next_ref s)) with d in R by (symmetry; apply upd_same).
  destruct R as (Hh & Ho & _ & Hs & tail & Hl & Hx).
  subst d1 d2 u rq.
  split; [exact Hh|].
  split. { intros l Hne. rewrite (Ho l Hne). now apply upd_other. }
  split; [exact Hs|].
  exists tail. rewrite <- El. split; [exact Hl | exact Hx].
Qed.

End PlaceFacts.

(** C10.  [_send_signed] works on the caller's mapping itself.  Whatever the
    outcome of the call, the mapping afterwards has ['timestamp'] and
    ['signature'] and still has every key it had; the entries under other
    keys and the other objects of the store are as before; a mapping that had
    neither key has grown by exactly these two entries; and a second
    submission of the same mapping computes its signature over a string that
    contains the previous ['signature'] field. *)
Theorem C10_payload_mutated_in_place :
  forall py w self method path l s,
    let run := _send_signed py w self method path l s in
    let after := heap (snd run) l in
    has_key "timestamp" after = true /\
    has_key "signature" after = true /\
    (forall k, has_key k (heap s l) = true -> has_key k after = true) /\
    (forall k, String.eqb k "timestamp" = false ->
               String.eqb k "signature" = false ->
               getitem after k = getitem (heap s l) k) /\
    (forall l', l' <> l -> heap (snd run) l' = heap s l') /\
    (has_key "timestamp" (heap s l) = false ->
     has_key "signature" (heap s l) = false ->
     exists ts sig,
       after = (heap s l ++ [("timestamp", VInt ts); ("signature", VStr sig)])%list) /\
    (forall py' w' method' path',
        exists ts2 s2,
          _get_timestamp py' w' self (snd run) = (Ok ts2, s2) /\
          let resigned := setitem after "timestamp" (VInt ts2) in
          has_key "signature" resigned = true /\
          getitem (heap (snd (_send_signed py' w' self method' path' l (snd run))) l)
            "signature"
          = Some (VStr (_sign self resigned))).
Proof.
  intros py w self method path l s run after.
  destruct (_get_timestamp_run py w self s) as (ts & s1 & Hts & _).
  destruct (_send_signed_run py w self method path l s ts s1 Hts)
    as (Hfinal & Hothers & _).
  fold run in Hfinal, Hothers. fold after in Hfinal.
  assert (Hsig : has_key "signature" after = true)
    by (rewrite Hfinal; apply has_key_setitem_same).
  split. { rewrite Hfinal. apply has_key_setitem_mono, has_key_setitem_same. }
  split; [exact Hsig|].
  split. { intros k Hk. rewrite Hfinal. now do 2 apply has_key_setitem_mono. }
  split. { intros k Kt Ks. rewrite Hfinal. now rewrite !getitem_setitem_other. }
  split; [exact Hothers|].
  split.
  - intros Ht Hs. exists ts, (_sign self (setitem (heap s l) "timestamp" (VInt ts))).
    rewrite Hfinal.
    rewrite (setitem_fresh (heap s l) "timestamp" _ Ht).
    rewrite setitem_fresh.
    + now rewrite <- app_assoc.
    + rewrite <- (setitem_fresh (heap s l) "timestamp" _ Ht).
      now rewrite has_key_setitem_other.
  - intros py' w' method' path'.
    destruct (_get_timestamp_run py' w' self (snd run)) as (ts2 & s2 & Hts2 & _).
    exists ts2, s2. split; [exact Hts2|].
    destruct (_send_signed_run py' w' self method' path' l (snd run) ts2 s2 Hts2)
      as (Hfinal2 & _).
    fold after in Hfinal2. cbv zeta. rewrite Hfinal2.
    split; [now apply has_key_setitem_mono | apply getitem_setitem_same].
Qed.

(** A market payload before and after one submission. *)
Lemma C10_witness :
  has_key "timestamp" (heap (Sample.state_with Sample.btc_market) 0%nat) = false /\
  has_key "signature" (heap (Sample.state_with Sample.btc_market) 0%nat) = false /\
  exists ts sig,
    heap (snd (_send_signed Sample.runtime0 Sample.world_reject Sample.client
                 "POST" API_ORDER_PATH 0%nat
                 (Sample.state_with Sample.btc_market))) 0%nat
    = (Sample.btc_market
         ++ [("timestamp", VInt ts); ("signature", VStr sig)])%list.
Proof.
  split; [reflexivity|]. split; [reflexivity|].
  destruct (C10_payload_mutated_in_place Sample.runtime0 Sample.world_reject
              Sample.client "POST" API_ORDER_PATH 0%nat
              (Sample.state_with Sample.btc_market))
    as (_ & _ & _ & _ & _ & H & _).
  apply H; reflexivity.
Defined.

(** C9.  The requests made for an intent are determined by the client, the
    intent and the timestamp: two submissions of the same intent that obtain
    the same timestamp, in whatever worlds and states, make the same calls on
    the session.  When the payload builds, the order call carries in both
    runs the same encoded body, signature included. *)
Theorem C9_same_timestamp_same_body :
  forall self i py1 w1 s1 py2 w2 s2 ts,
    fst (_get_timestamp py1 w1 self s1) = Ok ts ->
    fst (_get_timestamp py2 w2 self s2) = Ok ts ->
    sent_during (place py1 w1 self i) s1 = sent_during (place py2 w2 self i) s2 /\
    (forall d, build i = Ok d ->
       let d1 := setitem d "timestamp" (VInt ts) in
       let body := urlencode (setitem d1 "signature" (VStr (_sign self d1))) in
       map data (sent_during (place py1 w1 self i) s1) = [None; Some body] /\
       map data (sent_during (place py2 w2 self i) s2) = [None; Some body]).
Proof.
  intros self i py1 w1 s1 py2 w2 s2 ts H1 H2.
  unfold sent_during.
  destruct (build i) as [d|e] eqn:Hb.
  - destruct (place_run py1 w1 self i d s1 ts Hb H1) as (_ & _ & E1 & _).
    destruct (place_run py2 w2 self i d s2 ts Hb H2) as (_ & _ & E2 & _).
    rewrite E1, E2, !skipn_sent.
    split; [reflexivity|].
    intros d' [= <-]. split; reflexivity.
  - rewrite !(place_rejected _ _ _ i e) by exact Hb. cbn [snd].
    rewrite !skipn_all. split; [reflexivity | discriminate].
Qed.

(** The same limit order with the time served by the exchange, and with the
    exchange unreachable and the local clock at the same instant. *)
Lemma C9_witness :
  fst (_get_timestamp Sample.runtime0 Sample.world_ok Sample.client
         Sample.empty_state) = Ok 1700000000000 /\
  fst (_get_timestamp Sample.runtime0 Sample.world_down Sample.client
         (Sample.state_with Sample.btc_market)) = Ok 1700000000000 /\
  sent_during
    (place Sample.runtime0 Sample.world_ok Sample.client
       (Limit "BTCUSDT" "BUY" (PFloat f_0_001) (PFloat f_69000) "GTC" false))
    Sample.empty_state
  = sent_during
      (place Sample.runtime0 Sample.world_down Sample.client
         (Limit "BTCUSDT" "BUY" (PFloat f_0_001) (PFloat f_69000) "GTC" false))
      (Sample.state_with Sample.btc_market).
Proof.
  split; [reflexivity|]. split; [reflexivity|].
  refine (proj1 (C9_same_timestamp_same_body Sample.client
           (Limit "BTCUSDT" "BUY" (PFloat f_0_001) (PFloat f_69000) "GTC" false)
           Sample.runtime0 Sample.world_ok Sample.empty_state
           Sample.runtime0 Sample.world_down
           (Sample.state_with Sample.btc_market) 1700000000000 _ _));
    reflexivity.
Defined.

(** ** The time source, case by case *)


Lemma raise_for_status_pass r :
  ~ (400 <= status_code r < 600) -> raise_for_status r = Ok tt.
Proof.
  intros H. unfold raise_for_status.
  destruct ((400 <=? status_code r) && (status_code r <? 500)) eqn:E4.
  { apply andb_true_iff in E4. rewrite Z.leb_le, Z.ltb_lt in E4. lia. }
  destruct ((500 <=? status_code r) && (status_code r <? 600)) eqn:E5.
  { apply andb_true_iff in E5. rewrite Z.leb_le, Z.ltb_lt in E5. lia. }
  reflexivity.
Qed.

Lemma _get_timestamp_reading py w self s :
  fst (_get_timestamp py w self s)
  = Ok (time_reading py (transport w (sent s) (time_request self))
          (clock w (clock_reads s))).
Proof.
  unfold _get_timestamp, try_except, bind, fetch_server_time, bind,
    session_request, lift, raise, ret, logger, time_ms, time_reading.
  destruct (transport w (sent s) (time_request self)) as [r|c]; cbn;
    [|reflexivity].
  destruct (raise_for_status r) as [[]|e]; cbn; [|reflexivity].
  unfold r_json. destruct (decoded r) as [m|j]; cbn; [reflexivity|].
  destruct j; cbn; try reflexivity.
  destruct (truthy (obj_get o "serverTime")); cbn; [|reflexivity].
  destruct (py_int py (obj_get o "serverTime")); reflexivity.
Qed.




Lemma last_after {A} (l : list A) a tail d :
  last (l ++ a :: tail) d = last (a :: tail) d.
Proof.
  induction l as [|x l IH]; [reflexivity|].
  change ((x :: l) ++ a :: tail)%list with (x :: (l ++ a :: tail))%list.
  destruct (l ++ a :: tail)%list eqn:E; [|exact IH].
  now destruct l.
Qed.




(** C8, as the code has it.  The REQUEST record written by [_send_signed] is
    the encoded body in full, which for a payload without ['signature'] ends
    with [&signature=<value>].  The secret is never handed to the logger; it
    reaches the run only through the signature: a client that differs in the
    secret alone and produces the same signature for the timestamped payload
    behaves identically, log included. *)
Theorem C8_log_holds_signature_not_secret :
  forall py w self method path l s,
  exists ts s1,
    _get_timestamp py w self s = (Ok ts, s1) /\
    let d1 := setitem (heap s l) "timestamp" (VInt ts) in
    let d2 := setitem d1 "signature" (VStr (_sign self d1)) in
    In (DEBUG, request_line method (base self ++ path) (urlencode d2))
       (log (snd (_send_signed py w self method path l s))) /\
    (has_key "signature" (heap s l) = false ->
     urlencode d2 = urlencode d1 ++ "&signature=" ++ _sign self d1) /\
    (forall k,
        _sign (with_secret self k) d1 = _sign self d1 ->
        _send_signed py w (with_secret self k) method path l s
        = _send_signed py w self method path l s).
Proof.
  intros py w self method path l s.
  destruct (_get_timestamp_run py w self s) as (ts & s1 & Hts & Hh & _).
  exists ts, s1. split; [exact Hts|]. cbv zeta.
  destruct (_send_signed_run py w self method path l s ts s1 Hts)
    as (_ & _ & _ & _ & tail & Hlog & _).
  split. { rewrite Hlog. apply in_or_app. right. now left. }
  split.
  - intros Hfresh. apply urlencode_with_signature; [exact Hfresh|].
    apply quote_plus_sign.
  - intros k Hk. unfold _send_signed, bind.
    change (_get_timestamp py w (with_secret self k))
      with (_get_timestamp py w self).
    rewrite Hts. unfold read, write, logger. cbn.
    rewrite !upd_same, Hh, Hk. reflexivity.
Qed.

(** The secret with a zero byte appended yields the same HMAC key block,
    hence the same signature and the same run. *)
Lemma C8_witness :
  api_secret (with_secret Sample.client (api_secret Sample.client ++ [0])%list)
  <> api_secret Sample.client /\
  _send_signed Sample.runtime0 Sample.world_ok
    (with_secret Sample.client (api_secret Sample.client ++ [0])%list)
    "POST" API_ORDER_PATH 0%nat (Sample.state_with Sample.btc_market)
  = _send_signed Sample.runtime0 Sample.world_ok Sample.client
      "POST" API_ORDER_PATH 0%nat (Sample.state_with Sample.btc_market).
Proof.
  split; [discriminate|].
  destruct (C8_log_holds_signature_not_secret Sample.runtime0 Sample.world_ok
              Sample.client "POST" API_ORDER_PATH 0%nat
              (Sample.state_with Sample.btc_market))
    as (ts & s1 & Hts & _ & _ & H).
  apply H.
  vm_compute in Hts. injection Hts as <- _.
  vm_compute. reflexivity.
Defined.

(** The signature of a market order is readable in the log, and the log
    changes with the secret. *)
Lemma C8_counterexample :
  let st := Sample.state_with Sample.btc_market in
  let run := _send_signed Sample.runtime0 Sample.world_ok Sample.client
               "POST" API_ORDER_PATH 0%nat st in
  let other := _send_signed Sample.runtime0 Sample.world_ok
                 (with_secret Sample.client (bytes_of_string "another"))
                 "POST" API_ORDER_PATH 0%nat st in
  exists sig,
    getitem (heap (snd run) 0%nat) "signature" = Some (VStr sig) /\
    (exists line, In (DEBUG, line) (log (snd run)) /\ contains sig line = true) /\
    log (snd run) <> log (snd other).
Proof.
  cbv zeta. eexists. split; [vm_compute; reflexivity|].
  split.
  - eexists. split; [left; vm_compute; reflexivity | vm_compute; reflexivity].
  - vm_compute. discriminate.
Qed.




(* ================================================================== *)
(** * Further properties: text that needs no escaping *)

Section PlainText.

Lemma str_forall_app p (a b : string) :
  str_forall p (a ++ b) = str_forall p a && str_forall p b.
Proof.
  induction a as [|x a IH]; simpl; [reflexivity|].
  now rewrite IH, andb_assoc.
Qed.

Lemma is_digit_safe c : is_digit c = true -> always_safe c = true.
Proof.
  intros Hd. apply lower_hex_safe. unfold is_lower_hex. now rewrite Hd.
Qed.

Lemma digits_safe (s : string) :
  str_forall is_digit s = true -> str_forall always_safe s = true.
Proof. apply str_forall_impl, is_digit_safe. Qed.

Lemma str_of_int_safe (n : Z) : str_forall always_safe (str_of_int n) = true.
Proof.
  destruct (Z.neg_nonneg_cases n) as [Hneg | Hpos].
  - destruct n as [|p|p]; try lia.
    unfold str_of_int. cbn. apply digits_safe, uint_text.
  - apply digits_safe, str_of_int_digits, Hpos.
Qed.

Lemma fixed6_safe (n : Z) : 0 <= n -> str_forall always_safe (fixed6 n) = true.
Proof.
  intros Hn. destruct (fixed6_shape n Hn) as (ip & fp & -> & _ & Hi & _ & Hf).
  rewrite !str_forall_app, (digits_safe _ Hi), (digits_safe _ Hf). reflexivity.
Qed.

Lemma format_f_safe (x : pyfloat) : str_forall always_safe (format_f x) = true.
Proof.
  destruct x as [[|] m e | [|] | [|] |]; try reflexivity;
    unfold format_f, sign_str; rewrite str_forall_app, fixed6_safe;
    try reflexivity; apply scaled6_nonneg.
Qed.

Lemma quote_plus_format_f x : quote_plus (format_f x) = format_f x.
Proof. apply quote_plus_safe, format_f_safe. Qed.

Lemma quote_plus_str_of_int n : quote_plus (str_of_int n) = str_of_int n.
Proof. apply quote_plus_safe, str_of_int_safe. Qed.

End PlainText.

Arguments format_f : simpl never.
Arguments quote_plus : simpl nomatch.

(** ** The body of an order on the wire *)

Section WireFormat.

Context (py : runtime) (w : world) (self : BinanceFuturesRest).

(** The body posted for an intent whose payload is [d]: the serialization of
    [d] with the timestamp, then the signature of exactly that text. *)
Lemma posted_body i d s ts :
  build i = Ok d ->
  has_key "signature" d = false ->
  fst (_get_timestamp py w self s) = Ok ts ->
  let prefix := urlencode (setitem d "timestamp" (VInt ts)) in
  map data (sent_during (place py w self i) s)
  = [None;
     Some (prefix ++ "&signature="
             ++ hmac.hexdigest (hmac.new (api_secret self)
                                  (bytes_of_string prefix)))].
Proof.
  intros Hb Hfresh Hts prefix.
  destruct (place_run py w self i d s ts Hb Hts) as (_ & _ & Hs & _).
  unfold sent_during. rewrite Hs, skipn_sent.
  cbn [map data time_request order_request upper str_map upper_char is_lower
         in_range byte_of_ascii N_of_ascii N_of_digits Z.of_N andb Z.leb
         Z.compare Pos.compare Pos.compare_cont String.eqb Ascii.eqb Bool.eqb
         API_ORDER_PATH].
  do 2 f_equal.
  rewrite urlencode_with_signature by (try exact Hfresh; apply quote_plus_sign).
  reflexivity.
Qed.

End WireFormat.


(** The query strings of the three payloads once the timestamp is set. *)
Lemma market_query sy sd q (ro : bool) ts d :
  build (Market sy sd (PFloat q) ro) = Ok d ->
  urlencode (setitem d "timestamp" (VInt ts))
  = "symbol=" ++ quote_plus sy ++ "&side=" ++ quote_plus sd
      ++ "&type=MARKET&quantity=" ++ format_f q
      ++ "&reduceOnly=" ++ (if ro then "true" else "false")
      ++ "&timestamp=" ++ str_of_int ts.
Proof.
  intros [= <-]. unfold urlencode. cbn.
  rewrite ?quote_plus_format_f, ?quote_plus_str_of_int.
  destruct ro; cbn; rewrite ?app_str_assoc; reflexivity.
Qed.

Lemma limit_query sy sd q p tif (ro : bool) ts d :
  build (Limit sy sd (PFloat q) (PFloat p) tif ro) = Ok d ->
  urlencode (setitem d "timestamp" (VInt ts))
  = "symbol=" ++ quote_plus sy ++ "&side=" ++ quote_plus sd
      ++ "&type=LIMIT&timeInForce=" ++ quote_plus tif
      ++ "&quantity=" ++ format_f q ++ "&price=" ++ format_f p
      ++ "&reduceOnly=" ++ (if ro then "true" else "false")
      ++ "&timestamp=" ++ str_of_int ts.
Proof.
  intros [= <-]. unfold urlencode. cbn.
  rewrite ?quote_plus_format_f, ?quote_plus_str_of_int.
  destruct ro; cbn; rewrite ?app_str_assoc; reflexivity.
Qed.

Lemma stop_limit_query sy sd q sp p tif (ro : bool) ts d :
  build (StopLimit sy sd (PFloat q) (PFloat sp) (PFloat p) tif ro) = Ok d ->
  urlencode (setitem d "timestamp" (VInt ts))
  = "symbol=" ++ quote_plus sy ++ "&side=" ++ quote_plus sd
      ++ "&type=STOP&quantity=" ++ format_f q
      ++ "&stopPrice=" ++ format_f sp ++ "&price=" ++ format_f p
      ++ "&timeInForce=" ++ quote_plus tif
      ++ "&reduceOnly=" ++ (if ro then "true" else "false")
      ++ "&timestamp=" ++ str_of_int ts.
Proof.
  intros [= <-]. unfold urlencode. cbn.
  rewrite ?quote_plus_format_f, ?quote_plus_str_of_int.
  destruct ro; cbn; rewrite ?app_str_assoc; reflexivity.
Qed.

(** X1.  What each operation of the client posts, character by character:
    the fields in the order of the payload, symbol, side and time in force
    percent-encoded, the numbers as [format(x, 'f')] prints them, then the
    timestamp, then the signature of all that precedes [&signature=]. *)
Theorem X1_wire_format_of_orders :
  forall py w self s ts sy sd q p sp tif (ro : bool),
    fst (_get_timestamp py w self s) = Ok ts ->
    let flag := if ro then "true" else "false" in
    let signed prefix :=
      prefix ++ "&signature="
        ++ hmac.hexdigest (hmac.new (api_secret self) (bytes_of_string prefix)) in
    map data (sent_during (place py w self (Market sy sd (PFloat q) ro)) s)
    = [None;
       Some (signed ("symbol=" ++ quote_plus sy ++ "&side=" ++ quote_plus sd
                       ++ "&type=MARKET&quantity=" ++ format_f q
                       ++ "&reduceOnly=" ++ flag
                       ++ "&timestamp=" ++ str_of_int ts))] /\
    map data (sent_during
                (place py w self (Limit sy sd (PFloat q) (PFloat p) tif ro)) s)
    = [None;
       Some (signed ("symbol=" ++ quote_plus sy ++ "&side=" ++ quote_plus sd
                       ++ "&type=LIMIT&timeInForce=" ++ quote_plus tif
                       ++ "&quantity=" ++ format_f q
                       ++ "&price=" ++ format_f p
                       ++ "&reduceOnly=" ++ flag
                       ++ "&timestamp=" ++ str_of_int ts))] /\
    map data (sent_during
                (place py w self
                   (StopLimit sy sd (PFloat q) (PFloat sp) (PFloat p) tif ro)) s)
    = [None;
       Some (signed ("symbol=" ++ quote_plus sy ++ "&side=" ++ quote_plus sd
                       ++ "&type=STOP&quantity=" ++ format_f q
                       ++ "&stopPrice=" ++ format_f sp
                       ++ "&price=" ++ format_f p
                       ++ "&timeInForce=" ++ quote_plus tif
                       ++ "&reduceOnly=" ++ flag
                       ++ "&timestamp=" ++ str_of_int ts))].
Proof.
  intros py w self s ts sy sd q p sp tif ro Hts flag signed.
  subst flag signed. cbv beta.
  split; [|split].
  - rewrite (posted_body py w self (Market sy sd (PFloat q) ro) _ s ts
               eq_refl eq_refl Hts).
    now rewrite (market_query sy sd q ro ts _ eq_refl).
  - rewrite (posted_body py w self (Limit sy sd (PFloat q) (PFloat p) tif ro)
               _ s ts eq_refl eq_refl Hts).
    now rewrite (limit_query sy sd q p tif ro ts _ eq_refl).
  - rewrite (posted_body py w self
               (StopLimit sy sd (PFloat q) (PFloat sp) (PFloat p) tif ro)
               _ s ts eq_refl eq_refl Hts).
    now rewrite (stop_limit_query sy sd q sp p tif ro ts _ eq_refl).
Qed.

(** The market order of the design's scenario, as posted. *)
Lemma X1_witness :
  fst (_get_timestamp Sample.runtime0 Sample.world_ok Sample.client
         Sample.empty_state) = Ok 1700000000000 /\
  map data
    (sent_during
       (place Sample.runtime0 Sample.world_ok Sample.client
          (Market "BTCUSDT" "BUY" (PFloat f_0_001) false))
       Sample.empty_state)
  = [None;
     Some "symbol=BTCUSDT&side=BUY&type=MARKET&quantity=0.001000&reduceOnly=false&timestamp=1700000000000&signature=68d8405564950873318868a3bb2ddde21db71ce4c05ffa587be15de806891e5d"].
Proof.
  split; [reflexivity|].
  rewrite (proj1 (X1_wire_format_of_orders Sample.runtime0 Sample.world_ok
                    Sample.client Sample.empty_state 1700000000000
                    "BTCUSDT" "BUY" f_0_001 f_0_001 f_0_001 "GTC" false
                    eq_refl)).
  vm_compute. reflexivity.
Defined.

(* ================================================================== *)
(** * Further properties: the time source *)

Section TimeSource.

Context (py : runtime) (w : world) (self : BinanceFuturesRest).


End TimeSource.

(** X2.  [_get_timestamp] makes exactly one call on the session, a GET of
    [base + "/fapi/v1/time"] with a timeout of five seconds and neither body
    nor parameters; it returns an integer and leaves the store as it was,
    whatever the answer. *)
Theorem X2_time_source_footprint :
  forall py w self s,
    let run := _get_timestamp py w self s in
    sent_during (_get_timestamp py w self) s
    = [{| verb := "GET"; url := base self ++ "/fapi/v1/time";
          data := None; params := None; timeout := 5 |}] /\
    (exists n, fst run = Ok n) /\
    heap (snd run) = heap s /\ next_ref (snd run) = next_ref s.
Proof.
  intros py w self s run.
  destruct (_get_timestamp_run py w self s) as (ts & s1 & E & Hh & Hn & Hs).
  unfold sent_during. subst run. rewrite E. cbn [fst snd].
  rewrite Hs, skipn_sent. repeat split; eauto.
Qed.



(** X4.  A [serverTime] that is a finite non-zero float is truncated toward
    zero: the timestamp is the integer part of its value, so a value strictly
    between 0 and 1 gives the timestamp 0 and not the local time. *)
Theorem X4_float_server_time_is_truncated :
  forall py w self s r o neg m e,
    transport w (sent s) (time_request self) = Reply r ->
    ~ (400 <= status_code r < 600) ->
    decoded r = inr (JObj o) ->
    obj_get o "serverTime" = JFloat (Finite neg m e) ->
    exists a,
      fst (_get_timestamp py w self s) = Ok (if neg then - a else a) /\
      0 <= a /\
      (0 <= e -> a = Z.pos m * 2 ^ e) /\
      (e < 0 -> a * 2 ^ (- e) <= Z.pos m < (a + 1) * 2 ^ (- e)).
Proof.
  intros py w self s r o neg m e Ha Hst Hd Hv.
  rewrite _get_timestamp_reading, Ha. cbn.
  rewrite (raise_for_status_pass r Hst), Hd, Hv. cbn.
  destruct (0 <=? e) eqn:He.
  - apply Z.leb_le in He. exists (Z.pos m * 2 ^ e).
    split; [reflexivity|].
    split; [apply Z.mul_nonneg_nonneg; [lia | now apply Z.pow_nonneg]|].
    split; [reflexivity | lia].
  - apply Z.leb_gt in He.
    assert (Hp : 0 < 2 ^ (- e)) by (apply Z.pow_pos_nonneg; lia).
    exists (Z.pos m / 2 ^ (- e)).
    split; [reflexivity|].
    split; [apply Z.div_pos; lia|].
    split; [lia|]. intros _.
    pose proof (Z.mul_div_le (Z.pos m) _ Hp).
    pose proof (Z.mul_succ_div_gt (Z.pos m) _ Hp).
    nia.
Qed.

(** One half is read as the timestamp 0, with the local clock at another
    instant. *)
Lemma X4_witness :
  fst (_get_timestamp Sample.runtime0 Cases.world_half Sample.client
         Sample.empty_state) = Ok 0 /\
  clock Cases.world_half 0 <> 0.
Proof.
  split; [|discriminate].
  edestruct (X4_float_server_time_is_truncated Sample.runtime0 Cases.world_half
               Sample.client Sample.empty_state
               {| status_code := 200; reason := "OK"; resp_url := "";
                  text := "serverTime=0.5";
                  decoded := inr (JObj [("serverTime", JFloat f_half)]) |}
               [("serverTime", JFloat f_half)] false 1%positive (-1))
    as (a & H & Ha & _ & Hb);
    [reflexivity | cbn; lia | reflexivity | reflexivity |].
  assert (a = 0) by (change (2 ^ (- -1)) with 2 in Hb; lia).
  subst a. exact H.
Defined.

(* ================================================================== *)
(** * Further properties: the signed transport *)

Lemma keys_setitem_present (d : pydict) k v :
  has_key k d = true -> keys (setitem d k v) = keys d.
Proof.
  induction d as [|[k' v'] d IH]; [discriminate|].
  rewrite has_key_cons. simpl.
  destruct (String.eqb k k') eqn:E; simpl; [reflexivity|].
  intros H. now rewrite IH.
Qed.



(** X6.  An order answered with a status outside 4xx/5xx whose body does not
    decode as JSON makes [_send_signed] raise the decoding error, logged as a
    Network/Error record: the order request has been made, once, and the call
    still fails. *)
Theorem X6_undecodable_answer_raises_after_sending :
  forall py w self method path l s,
  exists ts s1,
    _get_timestamp py w self s = (Ok ts, s1) /\
    let d1 := setitem (heap s l) "timestamp" (VInt ts) in
    let d2 := setitem d1 "signature" (VStr (_sign self d1)) in
    let rq := order_request method (base self ++ path) (urlencode d2) d2 in
    let run := _send_signed py w self method path l s in
    forall r msg,
      transport w (sent s ++ [time_request self]) rq = Reply r ->
      ~ (400 <= status_code r < 600) ->
      decoded r = inl msg ->
      fst run = Raise (JSONDecodeError msg) /\
      sent_during (_send_signed py w self method path l) s
      = [time_request self; rq] /\
      last (log (snd run)) (DEBUG, "")
      = (ERROR, network_error_line (JSONDecodeError msg)).
Proof.
  intros py w self method path l s.
  destruct (_get_timestamp_run py w self s) as (ts & s1 & Hts & _).
  exists ts, s1. split; [exact Hts|].
  destruct (_send_signed_run py w self method path l s ts s1 Hts)
    as (_ & _ & _ & Hsent & tail & Hlog & Hx).
  cbv zeta in *. intros r msg Hr Hst Hd.
  unfold sent_during. rewrite Hsent, skipn_sent, Hlog, last_after.
  unfold exchange in Hx.
  rewrite Hr, (raise_for_status_pass r Hst), Hd in Hx.
  destruct Hx as [-> ->]. repeat split.
Qed.

(** The order endpoint answering 200 with a page of HTML. *)
Lemma X6_witness :
  fst (_send_signed Sample.runtime0 Cases.world_garbled Sample.client
         "POST" API_ORDER_PATH 0%nat (Sample.state_with Sample.btc_market))
  = Raise (JSONDecodeError "Expecting value") /\
  List.length (sent (snd (_send_signed Sample.runtime0 Cases.world_garbled
                            Sample.client "POST" API_ORDER_PATH 0%nat
                            (Sample.state_with Sample.btc_market)))) = 2%nat.
Proof.
  destruct (X6_undecodable_answer_raises_after_sending Sample.runtime0
              Cases.world_garbled Sample.client "POST" API_ORDER_PATH 0%nat
              (Sample.state_with Sample.btc_market))
    as (ts & s1 & _ & H).
  cbv zeta in H.
  edestruct H as (Hres & Hsent & _); [reflexivity | cbn; lia | reflexivity |].
  split; [exact Hres|].
  unfold sent_during in Hsent.
  change (sent (Sample.state_with Sample.btc_market)) with (@nil request) in Hsent.
  cbn [List.length skipn] in Hsent. now rewrite Hsent.
Defined.

(** X7.  The two entries are assigned, not appended: after the call
    ['timestamp'] holds the time just obtained and ['signature'] the HMAC of
    the mapping carrying it, whatever the caller had stored under these
    keys; a mapping that already had both keeps its list of keys, and so does
    any mapping on every submission after its first. *)
Theorem X7_timestamp_and_signature_are_overwritten :
  forall py w self method path l s,
    let run := _send_signed py w self method path l s in
    let after := heap (snd run) l in
    (exists ts,
        fst (_get_timestamp py w self s) = Ok ts /\
        getitem after "timestamp" = Some (VInt ts) /\
        getitem after "signature"
        = Some (VStr (_sign self (setitem (heap s l) "timestamp" (VInt ts))))) /\
    (has_key "timestamp" (heap s l) = true ->
     has_key "signature" (heap s l) = true ->
     keys after = keys (heap s l)) /\
    (forall py' w' method' path',
        keys (heap (snd (_send_signed py' w' self method' path' l (snd run))) l)
        = keys after).
Proof.
  intros py w self method path l s run after.
  destruct (_get_timestamp_run py w self s) as (ts & s1 & Hts & _).
  destruct (_send_signed_run py w self method path l s ts s1 Hts)
    as (Hfinal & _).
  fold run in Hfinal. fold after in Hfinal.
  split; [|split].
  - exists ts. rewrite Hts, Hfinal. split; [reflexivity|].
    rewrite getitem_setitem_other by reflexivity.
    now rewrite !getitem_setitem_same.
  - intros Ht Hs. rewrite Hfinal.
    rewrite keys_setitem_present by now apply has_key_setitem_mono.
    now apply keys_setitem_present.
  - intros py' w' method' path'.
    destruct (_get_timestamp_run py' w' self (snd run)) as (ts2 & s2 & Hts2 & _).
    destruct (_send_signed_run py' w' self method' path' l (snd run) ts2 s2 Hts2)
      as (Hfinal2 & _).
    fold after in Hfinal2. rewrite Hfinal2.
    assert (Hs : has_key "signature" after = true)
      by (rewrite Hfinal; apply has_key_setitem_same).
    assert (Ht : has_key "timestamp" after = true)
      by (rewrite Hfinal; apply has_key_setitem_mono, has_key_setitem_same).
    rewrite keys_setitem_present by now apply has_key_setitem_mono.
    now apply keys_setitem_present.
Qed.

(** A mapping that comes with a timestamp and a signature of its own. *)
Lemma X7_witness :
  keys (heap (snd (_send_signed Sample.runtime0 Sample.world_ok Sample.client
                     "POST" API_ORDER_PATH 0%nat
                     (Sample.state_with
                        [("signature", VStr "old"); ("symbol", VStr "BTCUSDT");
                         ("timestamp", VInt 1)]))) 0%nat)
  = ["signature"; "symbol"; "timestamp"].
Proof.
  destruct (X7_timestamp_and_signature_are_overwritten Sample.runtime0
              Sample.world_ok Sample.client "POST" API_ORDER_PATH 0%nat
              (Sample.state_with
                 [("signature", VStr "old"); ("symbol", VStr "BTCUSDT");
                  ("timestamp", VInt 1)]))
    as (_ & H & _).
  apply H; reflexivity.
Defined.

(* ================================================================== *)
(** * Further properties: construction and the command-line validators *)

Section CaseMapping.


Lemma byte_of_ascii_range c : 0 <= byte_of_ascii c < 256.
Proof.
  unfold byte_of_ascii. pose proof (N_ascii_bounded c). lia.
Qed.




Lemma ascii_byte_ascii c : ascii_of_byte (byte_of_ascii c) = c.
Proof.
  unfold byte_of_ascii, ascii_of_byte. rewrite N2Z.id. apply ascii_N_embedding.
Qed.



End CaseMapping.



(** X9.  [positive_number] returns a value exactly when the text parses and
    [v <= 0] is false.  That lets through, besides the positive finite
    numbers, positive infinity and NaN, which the client then renders as
    [inf] and [nan] in place of a decimal. *)
Theorem X9_positive_number_lets_nan_and_infinity_through :
  forall py x,
    (forall v, positive_number py x = Ok v <->
               float_of_str py x = Some v /\
               ((exists m e, v = Finite false m e) \/ v = Inf false \/ v = NaN)) /\
    (float_of_str py x = None ->
     positive_number py x = Raise (ArgumentTypeError "must be a number")) /\
    (float_of_str py x = Some NaN ->
     positive_number py x = Ok NaN /\ _fmt_qty (PFloat NaN) = Ok "nan") /\
    (float_of_str py x = Some (Inf false) ->
     positive_number py x = Ok (Inf false) /\
     _fmt_qty (PFloat (Inf false)) = Ok "inf").
Proof.
  intros py x. unfold positive_number.
  split; [|split; [|split]].
  - intros v. destruct (float_of_str py x) as [u|]; [|split; [discriminate|]].
    + split.
      * destruct u as [[|] m e | z | [|] |]; cbn; intros [= <-];
          (split; [reflexivity|]); eauto.
      * intros [[= ->] [(m & e & ->) | [-> | ->]]]; reflexivity.
    + intros [H _]. discriminate.
  - now intros ->.
  - intros ->. now split.
  - intros ->. now split.
Qed.

(** The texts [nan] and [inf] pass the validator. *)
Lemma X9_witness :
  positive_number runtime_words "nan" = Ok NaN /\
  positive_number runtime_words "inf" = Ok (Inf false) /\
  _fmt_qty (PFloat NaN) = Ok "nan".
Proof.
  destruct (X9_positive_number_lets_nan_and_infinity_through runtime_words "nan")
    as (_ & _ & Hnan & _).
  destruct (X9_positive_number_lets_nan_and_infinity_through runtime_words "inf")
    as (_ & _ & _ & Hinf).
  destruct (Hnan eq_refl) as [H1 H2]. destruct (Hinf eq_refl) as [H3 _].
  auto.
Defined.

(** ** The base address *)

Section BaseAddress.

Lemma app_str_empty (a : string) : a ++ "" = a.
Proof. induction a as [|x a IH]; simpl; [reflexivity | now rewrite IH]. Qed.

Lemma slashes_snoc n : slashes (S n) = slashes n ++ "/".
Proof. induction n as [|n IH]; [reflexivity|]. simpl in *. now rewrite <- IH. Qed.

Lemma rstrip_slash_split (s : string) :
  exists n, s = rstrip_slash s ++ slashes n.
Proof.
  induction s as [|c r [n IH]]; [now exists O|].
  simpl. destruct (rstrip_slash r) as [|a r0] eqn:E.
  - destruct (Ascii.eqb_spec c "/") as [-> | Hc].
    + exists (S n). simpl. now rewrite IH at 1.
    + exists n. simpl. now rewrite IH at 1.
  - exists n. simpl. now rewrite IH at 1.
Qed.

Lemma rstrip_slash_end (s t : string) : rstrip_slash s <> t ++ "/".
Proof.
  revert t. induction s as [|c r IH]; intros t; simpl.
  - destruct t; discriminate.
  - destruct (rstrip_slash r) as [|a r0] eqn:E.
    + destruct (Ascii.eqb_spec c "/") as [-> | Hc].
      * destruct t; discriminate.
      * destruct t as [|x [|y t]]; simpl; try discriminate.
        intros [= ->]. now apply Hc.
    + destruct t as [|x t]; simpl; [discriminate|].
      intros [= _ H]. exact (IH t H).
Qed.

Lemma rstrip_slash_idem (s : string) :
  rstrip_slash (rstrip_slash s) = rstrip_slash s.
Proof.
  destruct (rstrip_slash_split (rstrip_slash s)) as [[|n] H].
  - rewrite app_str_empty in H. now symmetry.
  - rewrite slashes_snoc, <- app_str_assoc in H.
    exfalso. exact (rstrip_slash_end _ _ H).
Qed.

End BaseAddress.

(** X10.  The client keeps the base address with every trailing slash
    removed and nothing else changed, so that the addresses it builds by
    appending a path that starts with a slash have exactly one at the join;
    an address already without a trailing slash is kept as it is.  The key
    goes into the session header and the secret is held as its bytes. *)
Theorem X10_init_strips_trailing_slashes :
  forall k sec u,
    let c := __init__ k sec u in
    (exists n, u = base c ++ slashes n) /\
    (forall t, base c <> t ++ "/") /\
    ((forall t, u <> t ++ "/") -> base c = u) /\
    base (__init__ k sec (base c)) = base c /\
    url (time_request c) = base c ++ "/fapi/v1/time" /\
    session_headers c
    = [("X-MBX-APIKEY", k);
       ("Content-Type", "application/x-www-form-urlencoded")].
Proof.
  intros k sec u c. subst c. cbn [__init__ base session_headers time_request url].
  split; [apply rstrip_slash_split|].
  split; [intros t; apply rstrip_slash_end|].
  split.
  - intros Hu. destruct (rstrip_slash_split u) as [[|n] H].
    + rewrite app_str_empty in H. now symmetry.
    + rewrite slashes_snoc, <- app_str_assoc in H.
      exfalso. exact (Hu _ H).
  - split; [apply rstrip_slash_idem|]. split; reflexivity.
Qed.

(** The address of the script, and the same with two slashes after it. *)
Lemma X10_witness :
  base (__init__ "KEY" "secret" TESTNET_BASE) = TESTNET_BASE /\
  base (__init__ "KEY" "secret" (TESTNET_BASE ++ "//")) = TESTNET_BASE.
Proof.
  destruct (X10_init_strips_trailing_slashes "KEY" "secret" TESTNET_BASE)
    as (_ & _ & H & _).
  split; [|reflexivity].
  apply H. intros t Ht.
  change TESTNET_BASE with (rstrip_slash TESTNET_BASE) in Ht.
  exact (rstrip_slash_end _ _ Ht).
Defined.

(** ** Keys of the signer *)

Lemma ljust_zeros (k : bytes) n :
  (List.length k + n <= 64)%nat ->
  hmac.ljust 64 (k ++ repeat 0 n)%list = hmac.ljust 64 k.
Proof.
  intros H. unfold hmac.ljust.
  rewrite length_app, repeat_length, <- app_assoc, <- repeat_app.
  do 2 f_equal. lia.
Qed.

Lemma hmac_new_zero_padded (key : bytes) n msg :
  (List.length key + n <= 64)%nat ->
  hmac.new (key ++ repeat 0 n)%list msg = hmac.new key msg.
Proof.
  intros H. unfold hmac.new, hashlib.block_size.
  assert (E1 : (64 <? List.length (key ++ repeat 0%Z n)%list)%nat = false).
  { apply Nat.ltb_ge. rewrite length_app, repeat_length. lia. }
  assert (E2 : (64 <? List.length key)%nat = false).
  { apply Nat.ltb_ge. lia. }
  rewrite E1, E2. now rewrite ljust_zeros.
Qed.

Lemma hmac_new_long_key (key msg : bytes) :
  (64 < List.length key)%nat ->
  hmac.new (hashlib.sha256 key) msg = hmac.new key msg.
Proof.
  intros H. unfold hmac.new, hashlib.block_size.
  assert (E1 : (64 <? List.length (hashlib.sha256 key))%nat = false).
  { apply Nat.ltb_ge. rewrite sha256_length. lia. }
  assert (E2 : (64 <? List.length key)%nat = true).
  { now apply Nat.ltb_lt. }
  now rewrite E1, E2.
Qed.

(** X11.  Two secrets can sign alike.  A secret of at most 64 bytes and the
    same secret followed by zero bytes, up to 64 in all, give the same
    signature for every mapping; a secret longer than 64 bytes signs as its
    own SHA-256 digest does. *)
Theorem X11_secrets_that_sign_alike :
  forall self d,
    (forall n, (List.length (api_secret self) + n <= 64)%nat ->
       _sign (with_secret self (api_secret self ++ repeat 0 n)%list) d
       = _sign self d) /\
    ((64 < List.length (api_secret self))%nat ->
       _sign (with_secret self (hashlib.sha256 (api_secret self))) d
       = _sign self d).
Proof.
  intros self d. unfold _sign, with_secret. cbv beta zeta.
  cbn [api_secret]. split.
  - intros n H. now rewrite hmac_new_zero_padded.
  - intros H. now rewrite hmac_new_long_key.
Qed.

(** The sample secret and the same with one zero byte. *)
Lemma X11_witness :
  api_secret Sample.client <> (api_secret Sample.client ++ [0])%list /\
  _sign (with_secret Sample.client (api_secret Sample.client ++ [0])%list)
    Sample.btc_market
  = _sign Sample.client Sample.btc_market.
Proof.
  split; [discriminate|].
  apply (proj1 (X11_secrets_that_sign_alike Sample.client Sample.btc_market) 1%nat).
  cbn. lia.
Defined.

(** ** Quantities below the last decimal place *)

(** X12.  A positive quantity of at most half a millionth passes the
    validator of the parser and is rendered, and therefore submitted, as
    [0.000000]. *)
Theorem X12_tiny_quantity_is_sent_as_zero :
  forall py x m e,
    float_of_str py x = Some (Finite false m e) ->
    e < 0 ->
    2 * (Z.pos m * 1000000) <= 2 ^ (- e) ->
    positive_number py x = Ok (Finite false m e) /\
    _fmt_qty (PFloat (Finite false m e)) = Ok "0.000000" /\
    _fmt_price (PFloat (Finite false m e)) = Ok "0.000000".
Proof.
  intros py x m e Hx He Hsmall.
  split. { unfold positive_number. now rewrite Hx. }
  assert (Hs : scaled6 m e = 0).
  { unfold scaled6.
    assert (E0 : (0 <=? e) = false) by (apply Z.leb_gt; lia).
    rewrite E0. cbv zeta.
    assert (Hd : 0 < 2 ^ (- e)) by (apply Z.pow_pos_nonneg; lia).
    assert (Hq : Z.pos m * 1000000 / 2 ^ (- e) = 0)
      by (apply Z.div_small; lia).
    assert (Hr : (Z.pos m * 1000000) mod 2 ^ (- e) = Z.pos m * 1000000)
      by (apply Z.mod_small; lia).
    rewrite Hq, Hr.
    assert (E1 : (2 ^ (- e) <? 2 * (Z.pos m * 1000000)) = false)
      by (apply Z.ltb_ge; lia).
    rewrite E1. cbn [Z.odd andb orb]. now rewrite andb_false_r. }
  unfold _fmt_qty, _fmt_price, py_float, format_f. rewrite Hs.
  split; reflexivity.
Qed.

(** 2^-24, written [5.960464477539063e-08], is such a quantity. *)
Lemma X12_witness :
  positive_number runtime_words "5.960464477539063e-08" = Ok f_tiny /\
  _fmt_qty (PFloat f_tiny) = Ok "0.000000".
Proof.
  destruct (X12_tiny_quantity_is_sent_as_zero runtime_words
              "5.960464477539063e-08" 1%positive (-24))
    as (H1 & H2 & _); [reflexivity | lia | cbn; lia |].
  split; [exact H1 | exact H2].
Defined.

(* ================================================================== *)
(** * Further properties: percent-encoding *)

Section PercentEncoding.

Lemma hex_digit_upper_safe n :
  0 <= n < 16 -> always_safe (hex_digit_upper n) = true.
Proof.
  apply (below_bound (fun n => always_safe (hex_digit_upper n) = true) 16).
  intros k Hk. do 16 (destruct k as [|k]; [reflexivity|]). lia.
Qed.

Lemma hex_value_digit n : 0 <= n < 16 -> hex_value (hex_digit_upper n) = n.
Proof.
  apply (below_bound (fun n => hex_value (hex_digit_upper n) = n) 16).
  intros k Hk. do 16 (destruct k as [|k]; [reflexivity|]). lia.
Qed.

Lemma byte_nibbles c :
  0 <= byte_of_ascii c / 16 < 16 /\ 0 <= byte_of_ascii c mod 16 < 16.
Proof.
  pose proof (byte_of_ascii_range c) as H. split.
  - split; [apply Z.div_pos; lia | apply Z.div_lt_upper_bound; lia].
  - apply Z.mod_pos_bound. lia.
Qed.

Lemma quote_char_alphabet c : str_forall quoted_char (quote_char c) = true.
Proof.
  unfold quote_char. destruct (always_safe c) eqn:Hs.
  - simpl. unfold quoted_char. now rewrite Hs.
  - destruct (Ascii.eqb c " "); [reflexivity|].
    destruct (byte_nibbles c) as [Hh Hl].
    cbn [str_forall]. unfold quoted_char.
    rewrite !hex_digit_upper_safe by assumption. reflexivity.
Qed.

Lemma quote_plus_alphabet (s : string) :
  str_forall quoted_char (quote_plus s) = true.
Proof.
  induction s as [|c s IH]; [reflexivity|].
  simpl. now rewrite str_forall_app, quote_char_alphabet, IH.
Qed.

Lemma count_char_app c (a b : string) :
  count_char c (a ++ b) = (count_char c a + count_char c b)%nat.
Proof. induction a as [|x a IH]; simpl; [reflexivity | rewrite IH; lia]. Qed.

Lemma count_char_absent c (s : string) :
  quoted_char c = false -> str_forall quoted_char s = true ->
  count_char c s = O.
Proof.
  intros Hc. induction s as [|x s IH]; [reflexivity|].
  simpl. rewrite andb_true_iff. intros [Hx Hs].
  destruct (Ascii.eqb_spec x c) as [-> | _]; [congruence|].
  now rewrite IH.
Qed.

Lemma count_in_quoted c (s : string) :
  quoted_char c = false -> count_char c (quote_plus s) = O.
Proof. intros Hc. apply count_char_absent, quote_plus_alphabet; exact Hc. Qed.

(** A field holds one equals sign and no ampersand. *)
Lemma field_counts k v :
  count_char "=" (quote_plus k ++ "=" ++ quote_plus v) = 1%nat /\
  count_char "&" (quote_plus k ++ "=" ++ quote_plus v) = 0%nat.
Proof.
  rewrite !count_char_app, !count_in_quoted by reflexivity. split; reflexivity.
Qed.

Lemma join_counts (l : list string) :
  Forall (fun f => count_char "=" f = 1%nat /\ count_char "&" f = 0%nat) l ->
  count_char "=" (join "&" l) = List.length l /\
  count_char "&" (join "&" l) = pred (List.length l).
Proof.
  induction l as [|f [|g l] IH]; intros H.
  - split; reflexivity.
  - inversion H as [|? ? [He Ha] _]; subst. simpl. split; assumption.
  - inversion H as [|? ? [He Ha] Hr]; subst.
    destruct (IH Hr) as [IHe IHa].
    rewrite join_cons by discriminate.
    rewrite !count_char_app, He, Ha, IHe, IHa. simpl. split; lia.
Qed.

Lemma encode_item_fields_counts kv :
  Forall (fun f => count_char "=" f = 1%nat /\ count_char "&" f = 0%nat)
    (encode_item kv).
Proof.
  destruct kv as [k [s | n | l]]; unfold encode_item; cbn [fst snd].
  - constructor; [apply field_counts | constructor].
  - constructor; [apply field_counts | constructor].
  - apply Forall_forall. intros f Hf. apply in_map_iff in Hf.
    destruct Hf as (x & <- & _). apply field_counts.
Qed.

Lemma scalar_fields (d : pydict) :
  scalar_valued d = true ->
  List.length (flat_map encode_item d) = List.length d.
Proof.
  induction d as [|[k v] d IH]; [reflexivity|].
  unfold scalar_valued. simpl. rewrite andb_true_iff. intros [Hv Hd].
  rewrite length_app, (IH Hd).
  destruct v; [reflexivity | reflexivity | discriminate].
Qed.

End PercentEncoding.

(** X13.  What the keys and values hold cannot change the number of fields.
    Percent-encoding produces only letters, digits, [_ . - ~], [+] and [%],
    so in the encoding of a mapping every [=] and [&] is a separator: there
    is one [=] a field and one [&] between two fields, and a mapping without
    sequence values has one field for each entry. *)
Theorem X13_values_cannot_add_fields :
  forall d,
    (forall s, str_forall quoted_char (quote_plus s) = true) /\
    count_char "=" (urlencode d) = List.length (flat_map encode_item d) /\
    count_char "&" (urlencode d) = pred (List.length (flat_map encode_item d)) /\
    (scalar_valued d = true ->
     count_char "=" (urlencode d) = List.length d /\
     count_char "&" (urlencode d) = pred (List.length d)).
Proof.
  intros d.
  assert (H : Forall (fun f => count_char "=" f = 1%nat /\
                               count_char "&" f = 0%nat)
                (flat_map encode_item d)).
  { apply Forall_flat_map. apply Forall_forall. intros kv _.
    apply encode_item_fields_counts. }
  destruct (join_counts _ H) as [He Ha]. unfold urlencode.
  split; [apply quote_plus_alphabet|].
  split; [exact He|]. split; [exact Ha|].
  intros Hs. now rewrite He, Ha, (scalar_fields d Hs).
Qed.

(** A symbol that spells a second field stays one value. *)
Lemma X13_witness :
  count_char "&"
    (urlencode [("symbol", VStr "BTC&side=SELL"); ("side", VStr "BUY")])
  = 1%nat /\
  urlencode [("symbol", VStr "BTC&side=SELL"); ("side", VStr "BUY")]
  = "symbol=BTC%26side%3DSELL&side=BUY".
Proof.
  destruct (X13_values_cannot_add_fields
              [("symbol", VStr "BTC&side=SELL"); ("side", VStr "BUY")])
    as (_ & _ & _ & H).
  split; [apply H; reflexivity | reflexivity].
Defined.

Lemma unquote_plain c (r : string) :
  Ascii.eqb c "+" = false -> Ascii.eqb c "%" = false ->
  unquote_plus (String c r) = String c (unquote_plus r).
Proof. intros Hp Hq. simpl. now rewrite Hp, Hq. Qed.

Lemma safe_is_plain c :
  always_safe c = true -> Ascii.eqb c "+" = false /\ Ascii.eqb c "%" = false.
Proof.
  intros Hs. split.
  - destruct (Ascii.eqb_spec c "+") as [-> | _]; [discriminate | reflexivity].
  - destruct (Ascii.eqb_spec c "%") as [-> | _]; [discriminate | reflexivity].
Qed.

Lemma unquote_quote_char c (r : string) :
  unquote_plus (quote_char c ++ r) = String c (unquote_plus r).
Proof.
  unfold quote_char. destruct (always_safe c) eqn:Hs.
  - destruct (safe_is_plain c Hs) as [Hp Hq].
    cbn [append]. now apply unquote_plain.
  - destruct (Ascii.eqb_spec c " ") as [-> | _]; [reflexivity|].
    destruct (byte_nibbles c) as [Hh Hl].
    cbn [append unquote_plus Ascii.eqb Bool.eqb].
    rewrite !hex_value_digit by assumption.
    rewrite <- Z.div_mod by lia.
    now rewrite ascii_byte_ascii.
Qed.

(** X14.  Percent-encoding loses nothing: reading back what [quote_plus]
    wrote gives the text it was given, so two different keys or values never
    have the same encoding. *)
Theorem X14_quote_plus_round_trip :
  (forall s, unquote_plus (quote_plus s) = s) /\
  (forall s t, quote_plus s = quote_plus t -> s = t).
Proof.
  assert (R : forall s, unquote_plus (quote_plus s) = s).
  { induction s as [|c s IH]; [reflexivity|].
    cbn [quote_plus]. now rewrite unquote_quote_char, IH. }
  split; [exact R|].
  intros s t H. rewrite <- (R s), <- (R t). now rewrite H.
Qed.

(** A symbol with a slash and a symbol with its escape differ once encoded. *)
Lemma X14_witness :
  quote_plus "BTC/USDT" <> quote_plus "BTC%2FUSDT" /\
  unquote_plus (quote_plus "BTC/USDT") = "BTC/USDT".
Proof.
  destruct X14_quote_plus_round_trip as [R I].
  split; [|apply R].
  intros H. apply I in H. discriminate.
Defined.

(* ================================================================== *)
(** * Further properties: numbers as text *)

Section NumbersAsText.

Lemma to_int_proper (n : Z) : Z.to_int n <> Pos Nil /\ Z.to_int n <> Neg Nil.
Proof.
  destruct n as [|p|p]; cbn; split; try discriminate;
    intros [= H]; exact (DecimalPos.Unsigned.to_uint_nonnil p H).
Qed.

(** The text of an integer determines it. *)
Lemma str_of_int_inj (a b : Z) : str_of_int a = str_of_int b -> a = b.
Proof.
  unfold str_of_int. intros H.
  apply (f_equal NilZero.int_of_string) in H.
  destruct (to_int_proper a) as [Ha1 Ha2].
  destruct (to_int_proper b) as [Hb1 Hb2].
  rewrite !NilZero.isi in H by assumption.
  injection H as H. now apply DecimalZ.to_int_inj.
Qed.

Lemma app_str_cancel (a x y : string) : a ++ x = a ++ y -> x = y.
Proof.
  induction a as [|c a IH]; simpl; [trivial|].
  intros [= H]. now apply IH.
Qed.

(** The query string of a mapping to which the timestamp is added. *)
Lemma urlencode_with_timestamp (d : pydict) t :
  has_key "timestamp" d = false ->
  urlencode (setitem d "timestamp" (VInt t))
  = match flat_map encode_item d with
    | [] => "timestamp=" ++ str_of_int t
    | _ => urlencode d ++ "&timestamp=" ++ str_of_int t
    end.
Proof.
  intros Hfresh. rewrite setitem_fresh by exact Hfresh.
  unfold urlencode. rewrite flat_map_app.
  cbn [flat_map encode_item fst snd app].
  rewrite quote_plus_str_of_int.
  destruct (flat_map encode_item d) as [|f fs] eqn:E; [reflexivity|].
  rewrite join_app by discriminate. reflexivity.
Qed.

End NumbersAsText.

(** X15.  The signed string pins the timestamp: for a mapping that does not
    yet hold ['timestamp'], two different timestamps give two different
    serializations, so a signature is never valid for another instant of the
    same order. *)
Theorem X15_signed_string_pins_the_timestamp :
  forall d t1 t2,
    has_key "timestamp" d = false ->
    urlencode (setitem d "timestamp" (VInt t1))
    = urlencode (setitem d "timestamp" (VInt t2)) ->
    t1 = t2.
Proof.
  intros d t1 t2 Hfresh.
  rewrite !urlencode_with_timestamp by exact Hfresh.
  destruct (flat_map encode_item d); intros H.
  - apply app_str_cancel in H. now apply str_of_int_inj.
  - apply app_str_cancel, app_str_cancel in H. now apply str_of_int_inj.
Qed.

(** The market payload one millisecond apart. *)
Lemma X15_witness :
  urlencode (setitem Sample.btc_market "timestamp" (VInt 1700000000000))
  <> urlencode (setitem Sample.btc_market "timestamp" (VInt 1700000000001)).
Proof.
  intros H.
  apply (X15_signed_string_pins_the_timestamp Sample.btc_market) in H;
    [discriminate | reflexivity].
Defined.

(** X16.  The number printed by [_fmt_qty] and [_fmt_price] for a finite
    float [m * 2^e] is [n] millionths, where [n] is the integer nearest to
    the value times one million: an integer value is printed exactly with six
    zeros, otherwise the error is at most half a millionth and a value half
    way between two millionths takes the even one. *)
Theorem X16_rendering_is_correctly_rounded :
  forall neg m e,
  exists n,
    0 <= n /\
    _fmt_qty (PFloat (Finite neg m e))
    = Ok (sign_str neg ++ str_of_int (n / 1000000) ++ "."
            ++ decimals6 (n mod 1000000)) /\
    _fmt_price (PFloat (Finite neg m e)) = _fmt_qty (PFloat (Finite neg m e)) /\
    (0 <= e -> n = Z.pos m * 2 ^ e * 1000000) /\
    (e < 0 ->
     2 * Z.abs (n * 2 ^ (- e) - Z.pos m * 1000000) <= 2 ^ (- e) /\
     (2 * Z.abs (n * 2 ^ (- e) - Z.pos m * 1000000) = 2 ^ (- e) ->
      Z.even n = true)).
Proof.
  intros neg m e. exists (scaled6 m e).
  split; [apply scaled6_nonneg|].
  split; [reflexivity|]. split; [reflexivity|].
  unfold scaled6. split.
  - intros He. apply Z.leb_le in He. now rewrite He.
  - intros He. assert (E0 : (0 <=? e) = false) by (apply Z.leb_gt; lia).
    rewrite E0. cbv zeta.
    assert (Hd : 0 < 2 ^ (- e)) by (apply Z.pow_pos_nonneg; lia).
    set (den := 2 ^ (- e)) in *. set (num := Z.pos m * 1000000).
    pose proof (Z.div_mod num den ltac:(lia)) as Hdm.
    pose proof (Z.mod_pos_bound num den Hd) as Hr.
    set (q := num / den) in *. set (r := num mod den) in *.
    destruct (den <? 2 * r) eqn:E1; cbn [orb].
    + apply Z.ltb_lt in E1. split; [|intros Htie]; nia.
    + apply Z.ltb_ge in E1.
      destruct (2 * r =? den) eqn:E2; cbn [andb].
      * apply Z.eqb_eq in E2.
        destruct (Z.odd q) eqn:Eo.
        -- split; [nia|]. intros _.
           rewrite Z.even_add, <- Z.negb_odd, Eo. reflexivity.
        -- split; [nia|]. intros _. now rewrite <- Z.negb_odd, Eo.
      * apply Z.eqb_neq in E2. split; [|intros Htie]; nia.
Qed.

(** 5/128 = 0.0390625 lies half way; the even neighbour is printed. *)
Lemma X16_witness :
  _fmt_qty (PFloat (Finite false 5 (-7))) = Ok "0.039062".
Proof.
  destruct (X16_rendering_is_correctly_rounded false 5 (-7))
    as (n & Hn & Ht & _ & _ & Hb).
  destruct (Hb ltac:(lia)) as [Hbound Htie].
  change (2 ^ (- -7)) with 128 in Hbound, Htie.
  assert (Hcases : n = 39062 \/ n = 39063) by lia.
  destruct Hcases as [-> | ->].
  - exact Ht.
  - specialize (Htie eq_refl). discriminate.
Defined.

(* ================================================================== *)
(** * Further properties: the command line *)

Arguments dispatch : simpl never.
Arguments place : simpl never.
Arguments place_market_order : simpl never.
Arguments place_limit_order : simpl never.
Arguments place_stop_limit_order : simpl never.

Section MainFacts.

Context (str_of_float : pyfloat -> string) (py : runtime) (w : world).

Lemma print_items_run o p :
  print_items py o p
  = (Ok tt, {| core := core p;
               screen := (screen p ++ item_lines py o)%list |}).
Proof.
  revert p. induction o as [|[k v] o IH]; intros [c sc].
  - cbn. now rewrite app_nil_r.
  - cbn [print_items]. unfold bindP, show. cbn [core screen].
    rewrite IH. cbn [core screen item_lines map fst snd].
    now rewrite <- app_assoc.
Qed.


Lemma falsy_py_or (a b : option string) :
  falsy (py_or a b) = falsy a && falsy b.
Proof.
  destruct a as [s|]; cbn; [|reflexivity].
  destruct (String.eqb s "") eqn:E; cbn; [reflexivity | now rewrite E].
Qed.

Lemma truthy_text (a : option string) :
  falsy a = false -> a = Some (text_of a) /\ text_of a <> "".
Proof.
  destruct a as [s|]; cbn; [|discriminate].
  intros H. split; [reflexivity | now apply String.eqb_neq].
Qed.



(** [main], by the outcome of its [if]/[elif] chain. *)
Lemma main_after_dispatch args env p :
  let api_key := py_or (ns_api_key args) (BINANCE_API_KEY env) in
  let api_secret := py_or (ns_api_secret args) (BINANCE_API_SECRET env) in
  let client := __init__ (text_of api_key) (text_of api_secret) TESTNET_BASE in
  falsy api_key = false -> falsy api_secret = false ->
  main str_of_float py w args env p
  = match dispatch str_of_float py w client (ns_command args) (core p) with
    | (Raise e, s') =>
        (Ok tt,
         {| core := snd (logger ERROR ("Failed to place order: " ++ str_exn e) s');
            screen := screen p |})
    | (Ok None, s') => (Ok tt, {| core := s'; screen := screen p |})
    | (Ok (Some resp), s') =>
        let s2 := snd (logger INFO (str_of_json py resp)
                         (snd (logger INFO "Order response:" s'))) in
        let header := Line (newline ++ "--- ORDER RESULT ---") in
        match json_items resp with
        | Ok o =>
            (Ok tt,
             {| core := s2;
                screen := (screen p ++ header :: item_lines py o
                             ++ [Line ("--------------------" ++ newline)])%list |})
        | Raise e =>
            (Ok tt,
             {| core := snd (logger ERROR
                               ("Failed to place order: " ++ str_exn e) s2);
                screen := (screen p ++ [header])%list |})
        end
    end.
Proof.
  intros api_key api_secret client Hk Hs.
  unfold main. fold api_key api_secret. rewrite Hk, Hs. cbn [orb].
  fold client. unfold try_exceptP, bindP, in_core at 1.
  destruct (dispatch str_of_float py w client (ns_command args) (core p))
    as [[[resp|]|e] s'].
  - unfold in_core, show. cbn [core screen fst snd logger].
    destruct (json_items resp) as [o|e] eqn:Ej; cbn [core screen].
    + rewrite print_items_run. cbn [core screen].
      rewrite <- !app_assoc. reflexivity.
    + reflexivity.
  - reflexivity.
  - unfold in_core. cbn [core screen]. reflexivity.
Qed.

End MainFacts.

(** X17.  [main] stops before the client exists when a credential is
    missing, that is when the flag and the environment variable of the key,
    or those of the secret, are both absent or empty: it logs one error,
    prints the help of the parser, makes no call on the session and returns
    normally.  An empty flag does not hide the variable. *)
Theorem X17_main_without_credentials :
  forall str_of_float py w args env p,
    (falsy (ns_api_key args) = true /\ falsy (BINANCE_API_KEY env) = true) \/
    (falsy (ns_api_secret args) = true /\ falsy (BINANCE_API_SECRET env) = true) ->
    let run := main str_of_float py w args env p in
    fst run = Ok tt /\
    sent (core (snd run)) = sent (core p) /\
    heap (core (snd run)) = heap (core p) /\
    log (core (snd run))
    = (log (core p)
         ++ [(ERROR, "API credentials required via flags or environment variables")])%list /\
    screen (snd run) = (screen p ++ [Help])%list.
Proof.
  intros str_of_float py w args env p H run. subst run.
  unfold main.
  assert (E : falsy (py_or (ns_api_key args) (BINANCE_API_KEY env))
              || falsy (py_or (ns_api_secret args) (BINANCE_API_SECRET env))
              = true).
  { rewrite !falsy_py_or. destruct H as [[-> ->] | [-> ->]];
      [reflexivity | apply orb_true_r]. }
  rewrite E. repeat split.
Qed.

(** No flag, no variable. *)
Lemma X17_witness :
  sent (core (snd (main (fun _ => "") Sample.runtime0 Sample.world_ok
                     {| ns_api_key := Some ""; ns_api_secret := Some "s";
                        ns_command := CmdMarket "btcusdt" "BUY" f_0_001 |}
                     {| BINANCE_API_KEY := None; BINANCE_API_SECRET := None |}
                     {| core := Sample.empty_state; screen := [] |})))
  = [] /\
  screen (snd (main (fun _ => "") Sample.runtime0 Sample.world_ok
                 {| ns_api_key := Some ""; ns_api_secret := Some "s";
                    ns_command := CmdMarket "btcusdt" "BUY" f_0_001 |}
                 {| BINANCE_API_KEY := None; BINANCE_API_SECRET := None |}
                 {| core := Sample.empty_state; screen := [] |}))
  = [Help].
Proof.
  destruct (X17_main_without_credentials (fun _ => "") Sample.runtime0
              Sample.world_ok
              {| ns_api_key := Some ""; ns_api_secret := Some "s";
                 ns_command := CmdMarket "btcusdt" "BUY" f_0_001 |}
              {| BINANCE_API_KEY := None; BINANCE_API_SECRET := None |}
              {| core := Sample.empty_state; screen := [] |})
    as (_ & Hs & _ & _ & Hp); [left; split; reflexivity|].
  split; [exact Hs | exact Hp].
Defined.



(** X19.  What [main] tells the user, by the outcome of the order.  It
    returns normally in every case.  When the client raised, the failure is
    logged with the text of the exception and nothing is printed.  When the
    answer is a JSON object its entries are printed, one line each, between
    the two rules.  When the exchange answered with JSON that is not an
    object, the order went through and is nevertheless reported as a
    failure: only the first rule is printed and the log ends with the error
    about [items]. *)
Theorem X19_main_reports_the_outcome :
  forall str_of_float py w args env p,
    let api_key := py_or (ns_api_key args) (BINANCE_API_KEY env) in
    let api_secret := py_or (ns_api_secret args) (BINANCE_API_SECRET env) in
    let client := __init__ (text_of api_key) (text_of api_secret) TESTNET_BASE in
    falsy api_key = false -> falsy api_secret = false ->
    let order := dispatch str_of_float py w client (ns_command args) (core p) in
    let run := main str_of_float py w args env p in
    let header := Line (newline ++ "--- ORDER RESULT ---") in
    let footer := Line ("--------------------" ++ newline) in
    fst run = Ok tt /\
    (forall e, fst order = Raise e ->
       log (core (snd run))
       = (log (snd order)
            ++ [(ERROR, ("Failed to place order: " ++ str_exn e)%string)])%list /\
       screen (snd run) = screen p) /\
    (forall o, fst order = Ok (Some (JObj o)) ->
       log (core (snd run))
       = (log (snd order)
            ++ [(INFO, "Order response:");
                (INFO, str_of_json py (JObj o))])%list /\
       screen (snd run)
       = (screen p ++ header :: item_lines py o ++ [footer])%list) /\
    (forall resp, fst order = Ok (Some resp) -> (forall o, resp <> JObj o) ->
       log (core (snd run))
       = (log (snd order)
            ++ [(INFO, "Order response:");
                (INFO, str_of_json py resp);
                (ERROR, ("Failed to place order: '" ++ type_name resp
                           ++ "' object has no attribute 'items'")%string)])%list /\
       screen (snd run) = (screen p ++ [header])%list).
Proof.
  intros str_of_float py w args env p api_key api_secret client Hk Hs
    order run header footer.
  subst run. rewrite (main_after_dispatch str_of_float py w args env p Hk Hs).
  fold api_key api_secret client. fold order.
  destruct order as [[[resp|]|e] s']; cbn [fst snd].
  - destruct resp as [| b | n | x | t | l | o];
      cbv zeta; cbn [json_items logger fst snd core screen log type_name].
    1-6: split; [reflexivity|]; split; [intros e [=]|];
         split; [intros o [=]|]; intros r [= <-] _;
         split; [now rewrite <- !app_assoc | reflexivity].
    split; [reflexivity|]. split; [intros e [=]|].
    split.
    + intros o' [= <-]. split; [now rewrite <- !app_assoc | reflexivity].
    + intros r [= <-] Hn. now destruct (Hn o).
  - split; [reflexivity|]. repeat split; discriminate.
  - split; [reflexivity|]. split; [|split; discriminate].
    intros e' [= <-]. split; reflexivity.
Qed.

(** An order accepted with a JSON array for an answer. *)
Lemma X19_witness :
  screen (snd (main (fun _ => "0.001") Sample.runtime0 world_array
                 sample_args sample_env fresh_process))
  = [Line (newline ++ "--- ORDER RESULT ---")] /\
  In (ERROR, "Failed to place order: 'list' object has no attribute 'items'")
     (log (core (snd (main (fun _ => "0.001") Sample.runtime0 world_array
                        sample_args sample_env fresh_process)))).
Proof.
  destruct (X19_main_reports_the_outcome (fun _ => "0.001") Sample.runtime0
              world_array sample_args sample_env fresh_process
              eq_refl eq_refl) as (_ & _ & _ & H).
  destruct (H (JArr [JInt 1])) as [Hl Hs];
    [vm_compute; reflexivity | discriminate |].
  split; [exact Hs|].
  rewrite Hl. apply in_or_app. right. right. right. left. reflexivity.
Defined.

(* ================================================================== *)
(** * Further properties: the form *)

Section FormFacts.

Context (py : runtime) (w : world).

(** The call made by the form is [place] for its intent. *)
Lemma frontend_unfold api_key api_secret symbol side order_type
    quantity price_input stop_input p :
  String.eqb api_key "" || String.eqb api_secret "" = false ->
  let bot := __init__ api_key api_secret TESTNET_BASE in
  frontend py w api_key api_secret symbol side order_type
    quantity price_input stop_input p
  = match place py w bot
            (form_intent symbol side order_type quantity price_input stop_input)
            (core p) with
    | (Ok resp, s') =>
        (Ok tt,
         {| core := s';
            screen := (screen p ++ [StSuccess "✅ Order Placed Successfully!";
                                    StJson resp])%list |})
    | (Raise e, s') =>
        (Ok tt,
         {| core := s';
            screen := (screen p
                         ++ [StError ("❌ Error placing order: " ++ str_exn e)%string])%list |})
    end.
Proof.
  intros Hc bot. unfold frontend. rewrite Hc. fold bot.
  unfold try_exceptP, bindP, in_core, show, form_intent, place.
  destruct (String.eqb order_type "MARKET");
    [|destruct (String.eqb order_type "LIMIT")];
    match goal with
    | |- context [?c (core p)] =>
        match type of (c (core p)) with
        | (result json * state)%type => destruct (c (core p)) as [[resp|e] s']
        end
    end; cbn [core screen]; rewrite <- ?app_assoc; reflexivity.
Qed.

End FormFacts.

(** X20.  What the form shows after the button is pressed.  The handler
    never raises.  With an empty key or an empty secret it shows the one
    error about the credentials and touches nothing else: no client is
    used, no request leaves.  Otherwise the client of the test network
    places the order of the widgets; its answer is shown under the success
    banner, and any exception is shown as one error line that carries the
    text of the exception. *)
Theorem X20_form_reports_the_outcome :
  forall py w api_key api_secret symbol side order_type
         quantity price_input stop_input p,
    let run := frontend py w api_key api_secret symbol side order_type
                 quantity price_input stop_input p in
    let bot := __init__ api_key api_secret TESTNET_BASE in
    let order := place py w bot
                   (form_intent symbol side order_type
                      quantity price_input stop_input) (core p) in
    fst run = Ok tt /\
    (api_key = "" \/ api_secret = "" ->
     core (snd run) = core p /\
     screen (snd run)
     = (screen p ++ [StError "Please enter both API Key and Secret."])%list) /\
    (api_key <> "" -> api_secret <> "" ->
     core (snd run) = snd order /\
     (forall resp, fst order = Ok resp ->
        screen (snd run)
        = (screen p ++ [StSuccess "✅ Order Placed Successfully!";
                        StJson resp])%list) /\
     (forall e, fst order = Raise e ->
        screen (snd run)
        = (screen p
             ++ [StError ("❌ Error placing order: " ++ str_exn e)%string])%list)).
Proof.
  intros py w api_key api_secret symbol side order_type
    quantity price_input stop_input p run bot order.
  destruct (String.eqb api_key "" || String.eqb api_secret "") eqn:Hc.
  - assert (Hrun : run
                   = (Ok tt,
                      {| core := core p;
                         screen := (screen p
                                      ++ [StError "Please enter both API Key and Secret."])%list |})).
    { subst run. unfold frontend. rewrite Hc. reflexivity. }
    rewrite Hrun. split; [reflexivity|]. split; [intros _; split; reflexivity|].
    intros Hk Hs. exfalso.
    apply Bool.orb_true_iff in Hc as [Hc|Hc]; apply String.eqb_eq in Hc;
      contradiction.
  - assert (Hrun := frontend_unfold py w api_key api_secret symbol side
                      order_type quantity price_input stop_input p Hc).
    cbv zeta in Hrun. fold bot order run in Hrun.
    apply Bool.orb_false_iff in Hc as [Hk Hs].
    apply String.eqb_neq in Hk, Hs.
    rewrite Hrun. destruct order as [[resp|e] s']; cbn [fst snd core screen].
    + split; [reflexivity|]. split; [intros [?|?]; contradiction|].
      intros _ _. split; [reflexivity|]. split.
      * now intros ? [= <-].
      * intros ? [=].
    + split; [reflexivity|]. split; [intros [?|?]; contradiction|].
      intros _ _. split; [reflexivity|]. split.
      * intros ? [=].
      * now intros ? [= <-].
Qed.

(** The refusal of the exchange reaches the user as one error line. *)
Lemma X20_witness :
  screen (snd (frontend Sample.runtime0 Sample.world_reject "KEY" "secret"
                 "BTCUSDT" "BUY" "MARKET" f_0_001 (Zero false) (Zero false)
                 fresh_process))
  = [StError "❌ Error placing order: 400 Client Error: Bad Request for url: "].
Proof.
  destruct (X20_form_reports_the_outcome Sample.runtime0 Sample.world_reject
              "KEY" "secret" "BTCUSDT" "BUY" "MARKET" f_0_001 (Zero false)
              (Zero false) fresh_process) as (_ & _ & H).
  destruct H as (_ & _ & He); [discriminate | discriminate |].
  match eval vm_compute in
          (fst (place Sample.runtime0 Sample.world_reject
                  (__init__ "KEY" "secret" TESTNET_BASE)
                  (form_intent "BTCUSDT" "BUY" "MARKET" f_0_001
                     (Zero false) (Zero false))
                  (core fresh_process))) with
  | Raise ?e => rewrite (He e); [reflexivity | vm_compute; reflexivity]
  end.
Defined.

(** X21.  What the form posts.  With both credentials filled in and a
    timestamp [ts] from the time source, pressing the button makes exactly
    two calls on the session, the time request and the order.  The symbol
    and the side leave as they were typed, percent-encoded but not put in
    upper case; the time in force is always GTC and [reduceOnly] always
    false; quantity, price and stop price are the numbers of the widgets in
    fixed-point form, whatever they are.  The text is signed with the secret
    as typed. *)
Theorem X21_form_posts_the_widgets_as_typed :
  forall py w api_key api_secret symbol side order_type
         quantity price_input stop_input p ts,
    let bot := __init__ api_key api_secret TESTNET_BASE in
    let run := frontend py w api_key api_secret symbol side order_type
                 quantity price_input stop_input p in
    let made := skipn (List.length (sent (core p))) (sent (core (snd run))) in
    let signed := fun prefix =>
      prefix ++ "&signature="
        ++ hmac.hexdigest (hmac.new (bytes_of_string api_secret)
                             (bytes_of_string prefix)) in
    let who := "symbol=" ++ quote_plus symbol ++ "&side=" ++ quote_plus side in
    let rest := "&reduceOnly=false&timestamp=" ++ str_of_int ts in
    api_key <> "" -> api_secret <> "" ->
    fst (_get_timestamp py w bot (core p)) = Ok ts ->
    (order_type = "MARKET" ->
     map data made
     = [None;
        Some (signed (who ++ "&type=MARKET&quantity=" ++ format_f quantity
                        ++ rest))]) /\
    (order_type = "LIMIT" ->
     map data made
     = [None;
        Some (signed (who ++ "&type=LIMIT&timeInForce=GTC&quantity="
                        ++ format_f quantity
                        ++ "&price=" ++ format_f price_input ++ rest))]) /\
    (order_type = "STOP-LIMIT" ->
     map data made
     = [None;
        Some (signed (who ++ "&type=STOP&quantity=" ++ format_f quantity
                        ++ "&stopPrice=" ++ format_f stop_input
                        ++ "&price=" ++ format_f price_input
                        ++ "&timeInForce=GTC" ++ rest))]).
Proof.
  intros py w api_key api_secret symbol side order_type
    quantity price_input stop_input p ts bot run made signed who rest
    Hk Hs Hts.
  assert (Hc : String.eqb api_key "" || String.eqb api_secret "" = false).
  { apply Bool.orb_false_iff. split; now apply String.eqb_neq. }
  assert (Hmade : made
                  = sent_during
                      (place py w bot
                         (form_intent symbol side order_type
                            quantity price_input stop_input)) (core p)).
  { subst made run. unfold sent_during.
    rewrite (frontend_unfold py w api_key api_secret symbol side order_type
               quantity price_input stop_input p Hc).
    cbv zeta. fold bot.
    destruct (place py w bot
                (form_intent symbol side order_type
                   quantity price_input stop_input) (core p))
      as [[resp|e] s']; reflexivity. }
  rewrite Hmade. clear Hmade made run.
  repeat split; intros ->.
  - change (form_intent symbol side "MARKET" quantity price_input stop_input)
      with (Market symbol side (PFloat quantity) false).
    match goal with
    | |- context [place py w bot ?i] =>
        assert (Hb : exists d, build i = Ok d /\ has_key "signature" d = false)
          by (eexists; split; reflexivity)
    end.
    destruct Hb as (d & Hb & Hsig).
    rewrite (posted_body py w bot _ d (core p) ts Hb Hsig Hts).
    rewrite (market_query symbol side quantity false ts d Hb).
    subst signed who rest. cbv beta. rewrite !app_str_assoc. reflexivity.
  - change (form_intent symbol side "LIMIT" quantity price_input stop_input)
      with (Limit symbol side (PFloat quantity) (PFloat price_input) "GTC" false).
    match goal with
    | |- context [place py w bot ?i] =>
        assert (Hb : exists d, build i = Ok d /\ has_key "signature" d = false)
          by (eexists; split; reflexivity)
    end.
    destruct Hb as (d & Hb & Hsig).
    rewrite (posted_body py w bot _ d (core p) ts Hb Hsig Hts).
    rewrite (limit_query symbol side quantity price_input "GTC" false ts d Hb).
    subst signed who rest. cbv beta. rewrite !app_str_assoc. reflexivity.
  - change (form_intent symbol side "STOP-LIMIT" quantity price_input stop_input)
      with (StopLimit symbol side (PFloat quantity) (PFloat stop_input)
              (PFloat price_input) "GTC" false).
    match goal with
    | |- context [place py w bot ?i] =>
        assert (Hb : exists d, build i = Ok d /\ has_key "signature" d = false)
          by (eexists; split; reflexivity)
    end.
    destruct Hb as (d & Hb & Hsig).
    rewrite (posted_body py w bot _ d (core p) ts Hb Hsig Hts).
    rewrite (stop_limit_query symbol side quantity stop_input price_input "GTC"
               false ts d Hb).
    subst signed who rest. cbv beta. rewrite !app_str_assoc. reflexivity.
Qed.

(** A symbol typed in lower case and a price of zero, which the price
    widget accepts, are posted as they are. *)
Lemma X21_witness :
  map data (sent (core (snd (frontend Sample.runtime0 Sample.world_ok
                               "KEY" "secret" "btcusdt" "BUY" "LIMIT"
                               f_0_001 (Zero false) (Zero false)
                               fresh_process))))
  = [None;
     Some "symbol=btcusdt&side=BUY&type=LIMIT&timeInForce=GTC&quantity=0.001000&price=0.000000&reduceOnly=false&timestamp=1700000000000&signature=95399743c3fc2675e453dc693c8b828e3bc54bab1e9e4dad2251fc34ecb36544"].
Proof.
  destruct (X21_form_posts_the_widgets_as_typed Sample.runtime0 Sample.world_ok
              "KEY" "secret" "btcusdt" "BUY" "LIMIT" f_0_001 (Zero false)
              (Zero false) fresh_process 1700000000000)
    as (_ & H & _); [discriminate | discriminate | reflexivity |].
  specialize (H eq_refl).
  change (skipn (List.length (sent (core fresh_process)))
            (sent (core (snd (frontend Sample.runtime0 Sample.world_ok
                                "KEY" "secret" "btcusdt" "BUY" "LIMIT"
                                f_0_001 (Zero false) (Zero false)
                                fresh_process)))))
    with (sent (core (snd (frontend Sample.runtime0 Sample.world_ok
                             "KEY" "secret" "btcusdt" "BUY" "LIMIT"
                             f_0_001 (Zero false) (Zero false)
                             fresh_process)))) in H.
  rewrite H. vm_compute. reflexivity.
Defined.
